(** * tende-api: search, deletion, invoice and formula stores

    A shallow embedding of the parts of [tende/main.py],
    [tende/schemas.py] and [tende/models/*.py] that decide the
    specification's statements about formula search, pagination,
    ingredient deletion, invoice creation and the formula round trip.

    The relational database, its text-search functions and the file
    system are external collaborators: the functions PostgreSQL provides
    are the fields of the class [Postgres]; tables are lists of rows;
    the driver's parameter binding is modelled as psycopg performs it. *)

From Stdlib Require Import ZArith QArith Lia Ascii String.
From stdpp Require Import base option list gmap strings sorting pretty.

Local Open Scope string_scope.
Local Open Scope Z_scope.

(** ** Python exceptions and results *)

Module Py.

(** The exception classes that the modelled code raises or catches. *)
Inductive exn :=
| AttributeError (attr : string)
| OperationalError
| DataError
| IntegrityError
| ProgrammingError
| RequestValidationError
| ValidationError
| OSError
| TypeError
| ZeroDivisionError
| HTTPException (status_code : Z) (detail : string).

Inductive res (A : Type) :=
| Ok (a : A)
| Raise (e : exn).
Arguments Ok {A} a.
Arguments Raise {A} e.

Definition rbind {A B} (r : res A) (k : A → res B) : res B :=
  match r with
  | Ok a => k a
  | Raise e => Raise e
  end.

Definition rmap {A B} (f : A → B) (r : res A) : res B :=
  rbind r (λ a, Ok (f a)).

(** Values held by attributes, and objects as attribute tables: an
    attribute holds an atom or a nested object of atoms (the fuzzy
    configuration). Attribute access on a name that is absent raises
    AttributeError, whatever the annotation of the variable says. *)
Inductive atom :=
| VNone
| VStr (s : string)
| VInt (z : Z)
| VFloat (x : Q).

Inductive value :=
| Atom (a : atom)
| Obj (attrs : list (string * atom)).

Definition object : Type := list (string * value).

Fixpoint assoc {V} (name : string) (attrs : list (string * V)) : option V :=
  match attrs with
  | [] => None
  | (k, v) :: rest => if String.eqb k name then Some v else assoc name rest
  end.

(** [o.name] on an object. *)
Definition getattr (o : object) (name : string) : res value :=
  match assoc name o with
  | Some v => Ok v
  | None => Raise (AttributeError name)
  end.

(** [v.name] on a value obtained from an attribute. *)
Definition getattr_of (v : value) (name : string) : res atom :=
  match v with
  | Obj attrs =>
      match assoc name attrs with
      | Some a => Ok a
      | None => Raise (AttributeError name)
      end
  | Atom _ => Raise (AttributeError name)
  end.

(** Integer arithmetic on attribute values; anything else than two
    integers is a TypeError here. *)
Definition int_op (f : Z → Z → Z) (a b : value) : res value :=
  match a, b with
  | Atom (VInt x), Atom (VInt y) => Ok (Atom (VInt (f x y)))
  | _, _ => Raise TypeError
  end.

(** [a // b]: floor division, ZeroDivisionError on a zero divisor. *)
Definition floordiv (a b : value) : res value :=
  match a, b with
  | Atom (VInt x), Atom (VInt y) =>
      if decide (y = 0) then Raise ZeroDivisionError else Ok (Atom (VInt (x `div` y)))
  | _, _ => Raise TypeError
  end.

(** The elements of a list display are evaluated from left to right;
    the first one that raises ends the evaluation. *)
Fixpoint collect {A} (items : list (res A)) : res (list A) :=
  match items with
  | [] => Ok []
  | Ok a :: rest => rmap (cons a) (collect rest)
  | Raise e :: _ => Raise e
  end.

(** [x is not None] *)
Definition is_not_None (v : value) : bool :=
  match v with Atom VNone => false | _ => true end.

End Py.
Export Py.

Notation "'let?' x ':=' r 'in' k" := (rbind r (λ x, k))
  (at level 10, x name, r at level 100, k at level 200, only parsing).

(** ** State and exceptions: the monad of the handlers *)

Section StateMonad.
Context {S : Type}.

Definition M (A : Type) : Type := S → res A * S.

Definition ret {A} (a : A) : M A := λ s, (Ok a, s).
Definition raise {A} (e : exn) : M A := λ s, (Raise e, s).
Definition bind {A B} (m : M A) (k : A → M B) : M B :=
  λ s, match m s with
       | (Ok a, s') => k a s'
       | (Raise e, s') => (Raise e, s')
       end.
Definition lift {A} (r : res A) : M A := λ s, (r, s).
Definition get : M S := λ s, (Ok s, s).
Definition put (s : S) : M unit := λ _, (Ok tt, s).

(** [try: body  except Exception as e: handler(e)] *)
Definition try_except {A} (body : M A) (handler : exn → M A) : M A :=
  λ s, match body s with
       | (Ok a, s') => (Ok a, s')
       | (Raise e, s') => handler e s'
       end.
End StateMonad.
Arguments M : clear implicits.

Notation "'let*' x ':=' m 'in' k" := (bind m (λ x, k))
  (at level 10, x name, m at level 100, k at level 200, only parsing).
Notation "'run' m 'then' k" := (bind m (λ _, k))
  (at level 10, m at level 100, k at level 200, only parsing).

(** ** The database

    PostgreSQL's text-search, trigram and edit-distance functions, the
    generation of the [search_vector] column, ILIKE and the collation are
    the database's own; the code only names them. *)

Class Postgres := {
  tsvector : Type;
  (** the expression that fills [formulas.search_vector] from name and
      description *)
  pg_search_vector : string → option string → tsvector;
  (** [sv @@ plainto_tsquery('english', q)] *)
  pg_ts_match : tsvector → string → bool;
  (** [ts_rank_cd(sv, plainto_tsquery('english', q))] *)
  pg_ts_rank_cd : tsvector → string → Q;
  (** [similarity(text, q)] of pg_trgm *)
  pg_similarity : string → string → Q;
  (** [levenshtein(a, b)] of fuzzystrmatch *)
  pg_levenshtein : string → string → Z;
  pg_lower : string → string;
  (** [text ILIKE pattern] *)
  pg_ilike : string → string → bool;
  (** the collation's order on text, for ORDER BY *)
  pg_collate_le : string → string → bool;
}.

Inductive table := t_ingredients | t_formulas | t_invoices.

Section Database.
Context `{PG : Postgres}.

Record ingredient_row := {
  i_id : string;
  i_name : string;
  i_unit : string;
  i_cost_per_unit : Q;
  i_density : option Q;
}.

(** [ingredients] is the jsonb object of the row: its members. *)
Record formula_row := {
  f_id : string;
  f_name : string;
  f_description : option string;
  f_ingredients : list (string * Q);
  f_mass : Q;
  f_search_vector : tsvector;
}.

Record invoice_row := {
  inv_id : string;
  inv_date : string;
  inv_supplier : string;
  inv_pdf_path : string;
  inv_ingredients : string;
}.

(** The connection [app.state.db] with the tables behind it.
    [executed] records, oldest first, the table of every statement
    that was sent. *)
Record database := {
  tbl_ingredients : list ingredient_row;
  tbl_formulas : list formula_row;
  tbl_invoices : list invoice_row;
  connected : bool;
  executed : list table;
}.

Definition sent (t : table) (db : database) : database :=
  {| tbl_ingredients := tbl_ingredients db;
     tbl_formulas := tbl_formulas db;
     tbl_invoices := tbl_invoices db;
     connected := connected db;
     executed := (executed db ++ [t])%list |}.

(** Every [cur.execute] goes through the connection: a statement on a
    connection that is down raises OperationalError and reaches no
    table. *)
Definition statement (t : table) : M database unit :=
  λ db, if connected db then (Ok tt, sent t db)
        else (Raise OperationalError, db).

End Database.

(** ** The SQL statements over [formulas] and their parameters

    The statements of [build_search_query], [build_count_query] and
    [FormulaRepository.search] differ only in the terms of the rank, the
    disjuncts of WHERE and whether LIMIT/OFFSET are placeholders or
    numbers pasted into the text; a statement is kept as these parts.
    Each constructor stands for the SQL text in its comment, [%s]
    included. *)

Module Sql.

Inductive column := col_name | col_description.

Inductive disjunct :=
| ts_match               (* search_vector @@ plainto_tsquery('english', %s) *)
| sim_gt (c : column)    (* similarity(c, %s) > %s *)
| lev_le (c : column).   (* levenshtein(lower(c), lower(%s)) <= %s *)

Inductive operand :=
| Placeholder            (* %s *)
| Literal (z : Z).       (* the number written into the text *)

(** SELECT id, name, description, ingredients, mass, <rank> as rank
    FROM formulas WHERE <d1 OR d2 ...> ORDER BY rank DESC
    LIMIT <limit> OFFSET <offset>,
    where <rank> is ts_rank_cd(search_vector,
    plainto_tsquery('english', %s)) when [rq_sims] is empty and
    GREATEST(that, similarity(c1, %s), ...) otherwise. *)
Record ranked_query := {
  rq_sims : list column;
  rq_where : list disjunct;
  rq_limit : operand;
  rq_offset : operand;
}.

(** SELECT COUNT( * ) FROM formulas WHERE <d1 OR d2 ...> *)
Record count_query := { cq_where : list disjunct }.

Definition disjunct_placeholders (d : disjunct) : nat :=
  match d with
  | ts_match => 1
  | sim_gt _ => 2
  | lev_le _ => 2
  end.

Definition operand_placeholders (o : operand) : nat :=
  match o with Placeholder => 1 | Literal _ => 0 end.

Definition where_placeholders (w : list disjunct) : nat :=
  foldr (λ d n, disjunct_placeholders d + n)%nat 0%nat w.

Definition ranked_placeholders (q : ranked_query) : nat :=
  (1 + length (rq_sims q) + where_placeholders (rq_where q)
   + operand_placeholders (rq_limit q) + operand_placeholders (rq_offset q))%nat.

Definition count_placeholders (q : count_query) : nat :=
  where_placeholders (cq_where q).

(** *** Statements with their parameters in place *)

Inductive bound_disjunct :=
| b_ts_match (q : string)
| b_sim_gt (c : column) (q : string) (threshold : Q)
| b_lev_le (c : column) (q : string) (max_distance : Q).

Record bound_ranked := {
  br_query : string;
  br_sims : list (column * string);
  br_where : list bound_disjunct;
  br_limit : Z;
  br_offset : Z;
}.

(** The server reads each parameter at the type of its position. *)
Definition as_text (v : value) : res string :=
  match v with
  | Atom (VStr s) => Ok s
  | _ => Raise ProgrammingError
  end.

Definition as_real (v : value) : res Q :=
  match v with
  | Atom (VFloat x) => Ok x
  | Atom (VInt z) => Ok (inject_Z z)
  | _ => Raise DataError
  end.

Definition as_bigint (v : value) : res Z :=
  match v with
  | Atom (VInt z) => Ok z
  | _ => Raise DataError
  end.

(** Parameters are consumed in the order of the placeholders. *)
Definition pop : M (list value) value :=
  λ args, match args with
          | [] => (Raise ProgrammingError, [])
          | v :: rest => (Ok v, rest)
          end.

Definition pop_as {A} (read : value → res A) : M (list value) A :=
  let* v := pop in lift (read v).

Fixpoint mapM {S A B} (f : A → M S B) (l : list A) : M S (list B) :=
  match l with
  | [] => ret []
  | a :: rest =>
      let* b := f a in
      let* bs := mapM f rest in
      ret (b :: bs)
  end.

Definition bind_disjunct (d : disjunct) : M (list value) bound_disjunct :=
  match d with
  | ts_match =>
      let* q := pop_as as_text in ret (b_ts_match q)
  | sim_gt c =>
      let* q := pop_as as_text in
      let* t := pop_as as_real in ret (b_sim_gt c q t)
  | lev_le c =>
      let* q := pop_as as_text in
      let* m := pop_as as_real in ret (b_lev_le c q m)
  end.

Definition bind_operand (o : operand) : M (list value) Z :=
  match o with
  | Placeholder => pop_as as_bigint
  | Literal z => ret z
  end.

Definition bind_ranked (q : ranked_query) : M (list value) bound_ranked :=
  let* tsq := pop_as as_text in
  let* sims := mapM (λ c, let* s := pop_as as_text in ret (c, s)) (rq_sims q) in
  let* w := mapM bind_disjunct (rq_where q) in
  let* l := bind_operand (rq_limit q) in
  let* o := bind_operand (rq_offset q) in
  ret {| br_query := tsq; br_sims := sims; br_where := w;
         br_limit := l; br_offset := o |}.

Definition bind_count (q : count_query) : M (list value) (list bound_disjunct) :=
  mapM bind_disjunct (cq_where q).

(** psycopg compares the number of placeholders with the number of
    parameters before anything is sent: "the query has N placeholders
    but M parameters were passed" is a ProgrammingError. *)
Definition check_arity (placeholders : nat) (args : list value) : res unit :=
  if decide (placeholders = length args) then Ok tt else Raise ProgrammingError.

End Sql.
Export Sql.

(** ** Evaluating the statements on the [formulas] table *)

Section Evaluation.
Context `{PG : Postgres}.

Definition column_of (c : column) (r : formula_row) : option string :=
  match c with
  | col_name => Some (f_name r)
  | col_description => f_description r
  end.

(** [a > b] and [a <= b] on reals *)
Definition Qgtb (a b : Q) : bool := negb (Qle_bool a b).

(** A disjunct on a row: [None] is SQL's NULL, which a function of a
    NULL column yields. *)
Definition holds (d : bound_disjunct) (r : formula_row) : option bool :=
  match d with
  | b_ts_match q => Some (pg_ts_match (f_search_vector r) q)
  | b_sim_gt c q t =>
      txt ← column_of c r; Some (Qgtb (pg_similarity txt q) t)
  | b_lev_le c q m =>
      txt ← column_of c r;
      Some (Qle_bool (inject_Z (pg_levenshtein (pg_lower txt) (pg_lower q))) m)
  end.

(** Three-valued OR. *)
Definition sql_or (a b : option bool) : option bool :=
  match a, b with
  | Some true, _ | _, Some true => Some true
  | Some false, Some false => Some false
  | _, _ => None
  end.

(** WHERE keeps the rows on which the condition is true (not false,
    not NULL). *)
Definition where_holds (w : list bound_disjunct) (r : formula_row) : bool :=
  match foldr (λ d acc, sql_or (holds d r) acc) (Some false) w with
  | Some true => true
  | _ => false
  end.

Definition Qmax (a b : Q) : Q := if Qle_bool a b then b else a.

(** GREATEST skips NULL arguments. *)
Definition rank_of (q : string) (sims : list (column * string))
    (r : formula_row) : Q :=
  foldr (λ '(c, s) acc,
           match column_of c r with
           | Some txt => Qmax (pg_similarity txt s) acc
           | None => acc
           end)
        (pg_ts_rank_cd (f_search_vector r) q) sims.

(** ORDER BY rank DESC: the row with the larger rank comes first; the
    order among equal ranks is the sort's. *)
Definition rank_ge (a b : formula_row * Q) : Prop := Qle_bool b.2 a.2.

Definition order_by_rank_desc (rows : list (formula_row * Q))
    : list (formula_row * Q) :=
  merge_sort rank_ge rows.

(** LIMIT and OFFSET; a negative one is refused by the server. *)
Definition limit_offset {A} (limit offset : Z) (rows : list A) : res (list A) :=
  if decide (limit < 0 ∨ offset < 0) then Raise DataError
  else Ok (take (Z.to_nat limit) (drop (Z.to_nat offset) rows)).

Definition select_ranked (b : bound_ranked) (rows : list formula_row)
    : res (list (formula_row * Q)) :=
  let matching := filter (λ r, where_holds (br_where b) r) rows in
  let ranked := (λ r, (r, rank_of (br_query b) (br_sims b) r)) <$> matching in
  limit_offset (br_limit b) (br_offset b) (order_by_rank_desc ranked).

Definition select_count (w : list bound_disjunct) (rows : list formula_row) : Z :=
  Z.of_nat (length (filter (λ r, where_holds w r) rows)).

(** [await cur.execute(query, params)] followed by [fetchall()], for
    a ranked statement. *)
Definition execute_ranked (q : ranked_query) (args : list value)
    : M database (list (formula_row * Q)) :=
  run lift (check_arity (ranked_placeholders q) args) then
  run statement t_formulas then
  let* b := lift (bind_ranked q args).1 in
  let* db := get in
  lift (select_ranked b (tbl_formulas db)).

(** [await cur.execute(query, params)] followed by [fetchone()[0]],
    for a counting statement. *)
Definition execute_count (q : count_query) (args : list value)
    : M database Z :=
  run lift (check_arity (count_placeholders q) args) then
  run statement t_formulas then
  let* w := lift (bind_count q args).1 in
  let* db := get in
  ret (select_count w (tbl_formulas db)).

End Evaluation.

(** ** [schemas.SearchParams] and the query builders of [main.py] *)

(** An instance of the model [SearchParams]: exactly the four declared
    fields. *)
Definition SearchParams (q : string) (page size : Z) (include : option string)
    : object :=
  [("q", Atom (VStr q));
   ("page", Atom (VInt page));
   ("size", Atom (VInt size));
   ("include", Atom (from_option VStr VNone include))].

(** A parameter object that does carry a fuzzy configuration, which
    [build_search_query] and [build_count_query] read when [is_fuzzy]. *)
Definition with_fuzzy (params : object) (similarity_threshold : Q)
    (max_distance : Z) : object :=
  (params ++ [("fuzzy", Obj [("similarity_threshold", VFloat similarity_threshold);
                              ("max_distance", VInt max_distance)])])%list.

(** [params.fuzzy.name] *)
Definition fuzzy_attr (params : object) (name : string) : res value :=
  let? f := getattr params "fuzzy" in
  rmap Atom (getattr_of f name).

(** [(params.page - 1) * params.size] *)
Definition offset_of (params : object) : res value :=
  let? page := getattr params "page" in
  let? page1 := int_op Z.sub page (Atom (VInt 1)) in
  let? size := getattr params "size" in
  int_op Z.mul page1 size.

Definition fuzzy_where : list disjunct :=
  [ts_match; sim_gt col_name; sim_gt col_description;
   lev_le col_name; lev_le col_description].

Definition build_search_query (params : object) (is_fuzzy : bool)
    : res (ranked_query * list value) :=
  let q := getattr params "q" in
  if is_fuzzy then
    let query := {| rq_sims := [col_name; col_description];
                    rq_where := fuzzy_where;
                    rq_limit := Placeholder; rq_offset := Placeholder |} in
    let? query_params := collect [
      q; q; q;                                        (* For ts_rank_cd *)
      q; q;                                           (* For tsquery *)
      q; fuzzy_attr params "similarity_threshold";    (* For name similarity *)
      q; fuzzy_attr params "similarity_threshold";    (* For description similarity *)
      q; fuzzy_attr params "max_distance";            (* For name levenshtein *)
      q; fuzzy_attr params "max_distance";            (* For description levenshtein *)
      getattr params "size"; offset_of params ] in
    Ok (query, query_params)
  else
    let query := {| rq_sims := []; rq_where := [ts_match];
                    rq_limit := Placeholder; rq_offset := Placeholder |} in
    let? query_params := collect [
      q; q;
      getattr params "size"; offset_of params ] in
    Ok (query, query_params).

Definition build_count_query (params : object) (is_fuzzy : bool)
    : res (count_query * list value) :=
  let q := getattr params "q" in
  if is_fuzzy then
    let query := {| cq_where := fuzzy_where |} in
    let? query_params := collect [
      q; q;                                           (* For tsquery *)
      q; fuzzy_attr params "similarity_threshold";    (* For name similarity *)
      q; fuzzy_attr params "similarity_threshold";    (* For description similarity *)
      q; fuzzy_attr params "max_distance";            (* For name levenshtein *)
      q; fuzzy_attr params "max_distance" ] in        (* For description levenshtein *)
    Ok (query, query_params)
  else
    let query := {| cq_where := [ts_match] |} in
    let? query_params := collect [q] in
    Ok (query, query_params).

(** ** [models/formula.py] *)

Section FormulaRepository.
Context `{PG : Postgres}.

(** The dataclass [Formula]. [ingredients] is a dict from ingredient
    id to percentage: its items in insertion order, keys distinct. *)
Record Formula := {
  id : string;
  name : string;
  description : option string;
  ingredients : list (string * Q);
  mass : Q;
}.



(** jsonb stores the members of an object with distinct keys (of equal
    keys the last one wins), ordered by key length and then
    bytewise. *)
Definition jsonb_key_le (a b : string * Q) : Prop :=
  (String.length a.1 <? String.length b.1)%nat
  || ((String.length a.1 =? String.length b.1)%nat && String.leb a.1 b.1).

Definition to_jsonb (members : list (string * Q)) : list (string * Q) :=
  merge_sort jsonb_key_le
    (map_to_list (list_to_map (M := gmap string Q) (reverse members))).

Definition with_formulas (rows : list formula_row) (db : database) : database :=
  {| tbl_ingredients := tbl_ingredients db;
     tbl_formulas := rows;
     tbl_invoices := tbl_invoices db;
     connected := connected db;
     executed := executed db |}.


(** The [except (...) as e: logger.exception(...); raise] clauses of
    the repositories pass the exception on unchanged. *)
Definition log_and_reraise {S A} (e : exn) : M S A := raise e.


Definition Formula_of_row (row : formula_row) : Formula :=
  {| id := f_id row; name := f_name row; description := f_description row;
     ingredients := f_ingredients row; mass := f_mass row |}.

(** SELECT ... FROM formulas WHERE id = %s, then [fetchone()]. *)
Definition select_formula_by_id (formula_id : string)
    : M database (option formula_row) :=
  run statement t_formulas then
  let* db := get in
  ret (head (filter (λ r, f_id r = formula_id) (tbl_formulas db))).

Definition FormulaRepository_get_by_id (formula_id : string)
    : M database (option Formula) :=
  try_except
    (let* row := select_formula_by_id formula_id in
     match row with
     | None => ret None
     | Some row => ret (Some (Formula_of_row row))
     end)
    log_and_reraise.

(** [search]: LIMIT and OFFSET are written into the text, the query
    string is passed twice, then once for the count. *)
Definition FormulaRepository_search (query : string) (page size : Z)
    : M database (list Formula * Z) :=
  try_except
    (let offset := (page - 1) * size in
     let search_query := {| rq_sims := []; rq_where := [ts_match];
                            rq_limit := Literal size;
                            rq_offset := Literal offset |} in
     let* rows := execute_ranked search_query
                    [Atom (VStr query); Atom (VStr query)] in
     let count_query := {| cq_where := [ts_match] |} in
     let* total_count := execute_count count_query [Atom (VStr query)] in
     ret ((λ row, Formula_of_row row.1) <$> rows, total_count))
    log_and_reraise.

End FormulaRepository.

(** ** The search handlers of [main.py] *)

Section SearchHandlers.
Context `{PG : Postgres}.

(** [dd_logger.info(msg, extra={...})]: the values of [extra] are
    evaluated, in order, before the call; the call itself has no
    effect on the request. *)
Definition dd_logger {S} (extra : list (res value)) : M S unit :=
  let* _ := lift (collect extra) in ret tt.

Record ingredient_item := {
  ii_id : string;
  ii_name : string;
  ii_unit : string;
  ii_cost_per_unit : Q;
  ii_density : option Q;
}.

Definition ingredient_item_of (row : ingredient_row) : ingredient_item :=
  {| ii_id := i_id row; ii_name := i_name row; ii_unit := i_unit row;
     ii_cost_per_unit := i_cost_per_unit row; ii_density := i_density row |}.

(** SELECT ... FROM ingredients WHERE id = ANY(%s) *)
Definition fetch_included_ingredients (ingredient_ids : list string)
    : M database (list ingredient_item) :=
  match ingredient_ids with
  | [] => ret []
  | _ =>
      run statement t_ingredients then
      let* db := get in
      ret (ingredient_item_of <$>
             filter (λ r, i_id r ∈ ingredient_ids) (tbl_ingredients db))
  end.

(** The items that [search_formulas] builds from a row: row[1], row[2]
    and row[3] under the keys "date", "supplier" and "pdf_path", and
    row[5], the rank, as the ingredients relationship. *)
Record formula_item := {
  fi_id : string;
  fi_date : string;
  fi_supplier : option string;
  fi_pdf_path : list (string * Q);
  fi_relationship : Q;
}.

Definition formula_item_of (row : formula_row * Q) : formula_item :=
  {| fi_id := f_id row.1; fi_date := f_name row.1;
     fi_supplier := f_description row.1;
     fi_pdf_path := f_ingredients row.1;
     fi_relationship := row.2 |}.

Record meta := {
  total_count : Z;
  page_count : value;
  page_size : value;
  current_page : value;
}.

Record search_result (item : Type) := {
  data : list item;
  result_meta : meta;
}.
Arguments data {item} _.
Arguments result_meta {item} _.

(** [(total_count + size - 1) // size] *)
Definition page_count_of (total_count : Z) (size : value) : res value :=
  let? a := int_op Z.add (Atom (VInt total_count)) size in
  let? b := int_op Z.sub a (Atom (VInt 1)) in
  floordiv b size.

(** GET /api/v1/search/formulas *)
Definition search_formulas (params : object)
    : M database (search_result formula_item) :=
  run dd_logger [getattr params "q"; getattr params "page";
                 getattr params "size";
                 rmap (λ f, Atom (VInt (if is_not_None f then 1 else 0)))
                      (getattr params "fuzzy")] then
  try_except
    (let* fuzzy := lift (getattr params "fuzzy") in
     let* search := lift (build_search_query params (is_not_None fuzzy)) in
     let* rows := execute_ranked search.1 search.2 in
     let* fuzzy := lift (getattr params "fuzzy") in
     let* count := lift (build_count_query params (is_not_None fuzzy)) in
     let* total_count := execute_count count.1 count.2 in
     let* include := lift (getattr params "include") in
     let* included :=
       match include with
       | Atom (VStr "ingredients") =>
           fetch_included_ingredients
             (remove_dups (concat ((λ row, (f_ingredients row.1).*1) <$> rows)))
       | _ => ret []
       end in
     run dd_logger [getattr params "q"; getattr params "page";
                    getattr params "size"] then
     let* size := lift (getattr params "size") in
     let* pages := lift (page_count_of total_count size) in
     let* size := lift (getattr params "size") in
     let* page := lift (getattr params "page") in
     ret {| data := formula_item_of <$> rows;
            result_meta := {| total_count := total_count; page_count := pages;
                              page_size := size; current_page := page |} |})
    (λ e,
       run dd_logger [getattr params "q"] then
       raise (HTTPException 500 "Failed to search formulas")).

(** [x or y] on optional strings, and the truth value of the result. *)
Definition str_or (x y : option string) : option string :=
  match x with
  | Some s => if decide (s = "") then y else x
  | None => y
  end.

Definition truthy (x : option string) : bool :=
  match x with
  | Some s => bool_decide (s ≠ "")
  | None => false
  end.

(** SELECT ... FROM ingredients WHERE name ILIKE %s OR unit ILIKE %s
    ORDER BY name LIMIT %s OFFSET %s *)
Definition ingredient_matches (pattern : string) (r : ingredient_row) : bool :=
  pg_ilike (i_name r) pattern || pg_ilike (i_unit r) pattern.

Definition by_name (a b : ingredient_row) : Prop :=
  pg_collate_le (i_name a) (i_name b).

Definition select_ingredients (pattern : string) (size offset : Z)
    : M database (list ingredient_row) :=
  run statement t_ingredients then
  let* db := get in
  lift (limit_offset size offset
          (merge_sort by_name
             (filter (λ r, ingredient_matches pattern r) (tbl_ingredients db)))).

Definition count_ingredients (pattern : string) : M database Z :=
  run statement t_ingredients then
  let* db := get in
  ret (Z.of_nat (length (filter (λ r, ingredient_matches pattern r)
                            (tbl_ingredients db)))).

(** GET /api/v1/search/ingredients. The handler's own [except] clauses
    are tried in order; the last one takes every exception, the
    HTTPException raised inside the [try] included. *)
Definition search_ingredients (q search : option string) (page size : Z)
    : M database (search_result ingredient_item) :=
  try_except
    (let search_term := str_or q search in
     if negb (truthy search_term) then
       raise (HTTPException 400
                "Search term is required. Use 'q' or 'search' parameter.")
     else
       let term := default "" search_term in
       let search_pattern := "%" +:+ term +:+ "%" in
       let offset := (page - 1) * size in
       let* rows := select_ingredients search_pattern size offset in
       let* total_count := count_ingredients search_pattern in
       let* pages := lift (page_count_of total_count (Atom (VInt size))) in
       ret {| data := ingredient_item_of <$> rows;
              result_meta := {| total_count := total_count; page_count := pages;
                                page_size := Atom (VInt size);
                                current_page := Atom (VInt page) |} |})
    (λ e,
       match e with
       | OperationalError => raise (HTTPException 503 "Database connection error")
       | DataError => raise (HTTPException 400 "Invalid data format")
       | ProgrammingError => raise (HTTPException 500 "Database programming error")
       | _ => raise (HTTPException 500 "An unexpected error occurred")
       end).


End SearchHandlers.
Arguments data {item} _.
Arguments result_meta {item} _.

(** ** Deleting ingredients: [main.py] and [models/ingredient.py] *)

Section DeleteIngredient.
Context `{PG : Postgres}.

Definition with_ingredients (rows : list ingredient_row) (db : database)
    : database :=
  {| tbl_ingredients := rows;
     tbl_formulas := tbl_formulas db;
     tbl_invoices := tbl_invoices db;
     connected := connected db;
     executed := executed db |}.

(** SELECT id FROM ingredients WHERE id = %s, then [fetchone()] *)
Definition select_ingredient_id (ingredient_id : string)
    : M database (option string) :=
  run statement t_ingredients then
  let* db := get in
  ret (head (filter (λ i, i = ingredient_id) (i_id <$> tbl_ingredients db))).

(** [ingredients ? key]: the jsonb object has the key. *)
Definition references (ingredient_id : string) (f : formula_row) : bool :=
  bool_decide (ingredient_id ∈ (f_ingredients f).*1).

(** SELECT COUNT( * ) FROM formulas WHERE ingredients ? %s *)
Definition count_referencing (ingredient_id : string) : M database Z :=
  run statement t_formulas then
  let* db := get in
  ret (Z.of_nat (length (filter (λ f, references ingredient_id f) (tbl_formulas db)))).

(** DELETE FROM ingredients WHERE id IN (ids) *)
Definition delete_ingredients (ids : list string) : M database unit :=
  run statement t_ingredients then
  let* db := get in
  put (with_ingredients (filter (λ r, i_id r ∉ ids) (tbl_ingredients db)) db).

(** DELETE /api/v1/ingredients/{ingredient_id} *)
Definition delete_ingredient (ingredient_id : string) : M database unit :=
  try_except
    (let* found := select_ingredient_id ingredient_id in
     match found with
     | None => raise (HTTPException 404 "Ingredient not found")
     | Some _ =>
         let* count := count_referencing ingredient_id in
         if decide (count > 0) then
           raise (HTTPException 400
                    ("Cannot delete ingredient: it is used in "
                     +:+ pretty count +:+ " formula(s)"))
         else
           delete_ingredients [ingredient_id]
     end)
    (λ e, raise (HTTPException 500 "Failed to delete ingredient")).

(** [IngredientRepository.delete] *)
Definition IngredientRepository_delete (ingredient_id : string)
    : M database unit :=
  try_except (delete_ingredients [ingredient_id]) log_and_reraise.

(** SELECT id::text, name FROM ingredients [WHERE id::text IN (...)];
    a list without elements makes the text [IN ()], which the server
    rejects. *)
Definition select_all_ingredients : M database (list string) :=
  run statement t_ingredients then
  let* db := get in
  ret (i_id <$> tbl_ingredients db).

Definition select_ingredients_in (ids : list string) : M database (list string) :=
  run lift (check_arity (length ids) (Atom ∘ VStr <$> ids)) then
  run statement t_ingredients then
  match ids with
  | [] => raise ProgrammingError
  | _ =>
      let* db := get in
      ret (filter (λ i, i ∈ ids) (i_id <$> tbl_ingredients db))
  end.

Definition join_with (sep : string) (parts : list string) : string :=
  match parts with
  | [] => ""
  | p :: rest => foldl (λ acc x, acc +:+ sep +:+ x) p rest
  end.

(** DELETE /api/v1/bulk/ingredients; [payload_ids] are the ids of
    [payload.data]. The final [except Exception: print; raise] passes
    every exception on. *)
Definition bulk_delete_ingredients (payload_ids : list string) : M database Z :=
  try_except
    (let* all_ingredients := select_all_ingredients in
     let ingredient_ids := payload_ids in
     let* found_ingredients := select_ingredients_in ingredient_ids in
     let missing_ids :=
       remove_dups (filter (λ i, i ∉ found_ingredients) ingredient_ids) in
     match missing_ids with
     | _ :: _ =>
         raise (HTTPException 404
                  ("Ingredients not found: " +:+ join_with ", " missing_ids))
     | [] =>
         run (match ingredient_ids with
              | [] => run statement t_ingredients then raise ProgrammingError
              | _ => delete_ingredients ingredient_ids
              end) then
         ret (Z.of_nat (length ingredient_ids))
     end)
    log_and_reraise.

(** The number of formulas whose mapping has the ingredient as a key. *)
Definition referencing (ingredient_id : string) (db : database) : Z :=
  Z.of_nat (length (filter (λ f, references ingredient_id f) (tbl_formulas db))).

End DeleteIngredient.

(** ** The application: validation of the parameters and the registered
    exception handlers *)

Section Application.
Context `{PG : Postgres}.

Inductive response (A : Type) :=
| Success (status : Z) (body : A)
| Failure (status : Z) (detail : string).
Arguments Success {A} status body.
Arguments Failure {A} status detail.

Definition status_of {A} (r : response A) : Z :=
  match r with Success s _ | Failure s _ => s end.

(** [http_exception_handler] answers an HTTPException with its own
    status and detail; a RequestValidationError gets the framework's
    422; [general_exception_handler] turns any other exception into a
    500. *)
Definition respond {A} (success_status : Z) (r : res A) : response A :=
  match r with
  | Ok a => Success success_status a
  | Raise (HTTPException status detail) => Failure status detail
  | Raise RequestValidationError => Failure 422 "Unprocessable Entity"
  | Raise _ => Failure 500 "An unexpected error occurred"
  end.

(** The query string of GET /api/v1/search/formulas. *)
Record search_request := {
  arg_q : option string;
  arg_page : option Z;
  arg_size : option Z;
  arg_include : option string;
}.

(** [params: SearchParams = Depends()]: [q: str] is required and has
    no other constraint; [page] is [Field(1, ge=1)], [size] is
    [Field(10, ge=1, le=100)]. *)
Definition resolve_SearchParams (rq : search_request) : res object :=
  match arg_q rq with
  | None => Raise RequestValidationError
  | Some q =>
      let page := default 1 (arg_page rq) in
      let size := default 10 (arg_size rq) in
      if decide (1 ≤ page ∧ 1 ≤ size ≤ 100)%Z
      then Ok (SearchParams q page size (arg_include rq))
      else Raise ValidationError
  end.

Definition GET_search_formulas (rq : search_request) (db : database)
    : response (search_result formula_item) * database :=
  match resolve_SearchParams rq with
  | Raise e => (respond 200 (Raise e), db)
  | Ok params =>
      let '(r, db') := search_formulas params db in (respond 200 r, db')
  end.

Definition GET_search_ingredients (q search : option string) (page size : Z)
    (db : database) : response (search_result ingredient_item) * database :=
  let '(r, db') := search_ingredients q search page size db in
  (respond 200 r, db').

Definition DELETE_ingredient (ingredient_id : string) (db : database)
    : response unit * database :=
  let '(r, db') := delete_ingredient ingredient_id db in (respond 204 r, db').

Definition DELETE_bulk_ingredients (payload_ids : list string) (db : database)
    : response Z * database :=
  let '(r, db') := bulk_delete_ingredients payload_ids db in (respond 200 r, db').

End Application.
Arguments Success {A} status body.
Arguments Failure {A} status detail.

(** ** [models/invoice.py]: the file and the row *)

Section InvoiceRepository.
Context `{PG : Postgres}.

Record Invoice := {
  invoice_id : string;
  date : string;
  supplier : string;
  pdf_path : string;
  invoice_ingredients : string;
}.

(** What the disk does to the next creation. *)
Inductive disk := disk_ok | makedirs_fails | open_fails | write_fails.

Inductive event :=
| FileWritten (path : string)
| FileRemoved (path : string)
| RowInserted (id : string).

(** The files by path, the database, and what happened, oldest
    first. *)
Record world := {
  w_fs : gmap string (list Byte.byte);
  w_db : database;
  w_disk : disk;
  w_trace : list event;
}.

Definition with_fs (fs : gmap string (list Byte.byte)) (w : world) : world :=
  {| w_fs := fs; w_db := w_db w; w_disk := w_disk w; w_trace := w_trace w |}.

Definition with_db (db : database) (w : world) : world :=
  {| w_fs := w_fs w; w_db := db; w_disk := w_disk w; w_trace := w_trace w |}.

Definition record (e : event) (w : world) : world :=
  {| w_fs := w_fs w; w_db := w_db w; w_disk := w_disk w;
     w_trace := (w_trace w ++ [e])%list |}.

Definition on_db {A} (m : M database A) : M world A :=
  λ w, let '(r, db') := m (w_db w) in (r, with_db db' w).

(** [os.path.join(a, b)] for two components. *)
Definition starts_with_slash (s : string) : bool :=
  match s with
  | String c _ => bool_decide (c = "/"%char)
  | EmptyString => false
  end.

Fixpoint ends_with_slash (s : string) : bool :=
  match s with
  | EmptyString => false
  | String c EmptyString => bool_decide (c = "/"%char)
  | String _ rest => ends_with_slash rest
  end.

Definition os_path_join (a b : string) : string :=
  if starts_with_slash b then b
  else if bool_decide (a = "") || ends_with_slash a then a +:+ b
  else a +:+ "/" +:+ b.

(** [os.path.dirname(p)]: up to the last slash, without trailing
    slashes unless it consists of slashes only. *)
Definition is_slash (c : ascii) : bool := bool_decide (c = "/"%char).

Fixpoint drop_while {A} (f : A → bool) (l : list A) : list A :=
  match l with
  | [] => []
  | x :: rest => if f x then drop_while f rest else l
  end.

Definition os_path_dirname (p : string) : string :=
  let head := reverse (drop_while (λ c, negb (is_slash c))
                         (reverse (list_ascii_of_string p))) in
  if forallb is_slash head then string_of_list_ascii head
  else string_of_list_ascii
         (reverse (drop_while is_slash (reverse head))).

(** [os.makedirs(d, exist_ok=True)]; the empty path is refused.
    Directories are not part of [w_fs]. *)
Definition os_makedirs (d : string) : M world unit :=
  λ w, if bool_decide (d = "") then (Raise OSError, w)
       else match w_disk w with
            | makedirs_fails => (Raise OSError, w)
            | _ => (Ok tt, w)
            end.

(** [with open(path, "wb") as f: f.write(file)]: opening creates or
    empties the file. *)
Definition write_file (path : string) (file : list Byte.byte) : M world unit :=
  λ w, match w_disk w with
       | open_fails => (Raise OSError, w)
       | write_fails => (Raise OSError, with_fs (<[path := []]> (w_fs w)) w)
       | _ => (Ok tt, record (FileWritten path)
                        (with_fs (<[path := file]> (w_fs w)) w))
       end.

Definition os_path_exists (path : string) : M world bool :=
  λ w, (Ok (bool_decide (is_Some (w_fs w !! path))), w).

Definition os_remove (path : string) : M world unit :=
  λ w, match w_fs w !! path with
       | Some _ => (Ok tt, record (FileRemoved path)
                             (with_fs (delete path (w_fs w)) w))
       | None => (Raise OSError, w)
       end.

Definition with_invoices (rows : list invoice_row) (db : database) : database :=
  {| tbl_ingredients := tbl_ingredients db;
     tbl_formulas := tbl_formulas db;
     tbl_invoices := rows;
     connected := connected db;
     executed := executed db |}.

(** INSERT INTO invoices (id, date, supplier, pdf_path, ingredients) *)
Definition insert_invoice (row : invoice_row) : M world unit :=
  run on_db (run statement t_invoices then
             let* db := get in
             put (with_invoices (tbl_invoices db ++ [row]) db)) then
  λ w, (Ok tt, record (RowInserted (inv_id row)) w).

(** The tuple passed to the INSERT; [ingredients_json] is the text of
    [json.dumps(invoice.ingredients)]. *)
Definition invoice_row_of (invoice : Invoice) : invoice_row :=
  let ingredients_json := invoice_ingredients invoice in
  {| inv_id := invoice_id invoice; inv_date := date invoice;
     inv_supplier := supplier invoice;
     inv_pdf_path := pdf_path invoice;
     inv_ingredients := ingredients_json |}.

(** [InvoiceRepository.create]; [file_path] is assigned by the first
    statement of the [try], so it is among the locals whenever the
    [except] clause runs. *)
Definition InvoiceRepository_create (upload_dir : string) (invoice : Invoice)
    (file : list Byte.byte) : M world Invoice :=
  let file_path := os_path_join upload_dir (pdf_path invoice) in
  try_except
    (run os_makedirs (os_path_dirname file_path) then
     run write_file file_path file then
     let ingredients_json := invoice_ingredients invoice in
     run insert_invoice
           {| inv_id := invoice_id invoice; inv_date := date invoice;
              inv_supplier := supplier invoice;
              inv_pdf_path := pdf_path invoice;
              inv_ingredients := ingredients_json |} then
     ret invoice)
    (λ e,
       let* present := os_path_exists file_path in
       run (if present : bool then os_remove file_path else ret tt) then
       raise e).

(** [create_invoice] of [main.py] names the file after a fresh uuid:
    [pdf_filename = f"{uuid4()}.pdf"], [pdf_path = f"invoices/{pdf_filename}"];
    the repository is built with [str(UPLOAD_DIR)]. *)
Definition UPLOAD_DIR : string := "uploads/invoices".

Definition generated_pdf_path (uuid : string) : string :=
  let pdf_filename := uuid +:+ ".pdf" in
  "invoices/" +:+ pdf_filename.

End InvoiceRepository.

(** ** A small database engine, to run the code on concrete tables

    Text search by lower-cased containment, similarity as equality up to
    case, the edit distance itself, and ILIKE for patterns of the shape
    [%term%]. *)

Module Reference.

Definition lower_char (c : ascii) : ascii :=
  let n := nat_of_ascii c in
  if (65 <=? n)%nat && (n <=? 90)%nat then ascii_of_nat (n + 32) else c.

Fixpoint lower (s : string) : string :=
  match s with
  | EmptyString => EmptyString
  | String c rest => String (lower_char c) (lower rest)
  end.

Fixpoint contains (s p : string) : bool :=
  String.prefix p s ||
  match s with
  | EmptyString => false
  | String _ rest => contains rest p
  end.

Fixpoint levenshtein (s : list ascii) : list ascii → nat :=
  fix against (t : list ascii) : nat :=
    match s, t with
    | [], _ => length t
    | _, [] => length s
    | a :: s', b :: t' =>
        if bool_decide (a = b) then levenshtein s' t'
        else S (Nat.min (levenshtein s' t) (Nat.min (against t') (levenshtein s' t')))
    end.

(** [%term%] without its first and last character. *)
Definition pattern_term (pattern : string) : string :=
  String.substring 1 (String.length pattern - 2) pattern.

Definition text_of (name : string) (description : option string) : string :=
  lower (name +:+ " " +:+ default "" description).

Definition pg : Postgres := {|
  tsvector := string;
  pg_search_vector := text_of;
  pg_ts_match sv q := negb (bool_decide (q = "")) && contains sv (lower q);
  pg_ts_rank_cd sv q :=
    if negb (bool_decide (q = "")) && contains sv (lower q) then 1 # 10 else 0 # 1;
  pg_similarity a b := if bool_decide (lower a = lower b) then 1 # 1 else 0 # 1;
  pg_levenshtein a b :=
    Z.of_nat (levenshtein (list_ascii_of_string a) (list_ascii_of_string b));
  pg_lower := lower;
  pg_ilike text pattern := contains (lower text) (lower (pattern_term pattern));
  pg_collate_le := String.leb;
|}.

Definition formula (id name : string) (description : option string)
    (ingredients : list (string * Q)) (mass : Q) : formula_row (PG := pg) :=
  @Build_formula_row pg id name description ingredients mass
    (text_of name description).

Definition db_of (ingredients : list ingredient_row)
    (formulas : list (formula_row (PG := pg))) : database (PG := pg) :=
  {| tbl_ingredients := ingredients; tbl_formulas := formulas;
     tbl_invoices := []; connected := true; executed := [] |}.

(** An ingredient, and a formula that consists of it. *)
Definition chamomile : ingredient_row :=
  {| i_id := "i1"; i_name := "Chamomile"; i_unit := "g";
     i_cost_per_unit := 21 # 2; i_density := None |}.

Definition tea_db : database (PG := pg) :=
  db_of [chamomile]
    [formula "f1" "Evening tea" None [("i1", 100 # 1)] (100 # 1);
     formula "f2" "Mint" (Some "fresh mint, no chamomile") [] (50 # 1)].


(** An invoice as [create_invoice] builds it, and a world whose
    connection is down. *)
Definition herbs_invoice : Invoice :=
  {| invoice_id := "n1"; date := "2024-05-01"; supplier := "Herbs Ltd";
     pdf_path := generated_pdf_path "0001"; invoice_ingredients := "[]" |}.

Definition offline : world (PG := pg) :=
  {| w_fs := ∅;
     w_db := {| tbl_ingredients := []; tbl_formulas := []; tbl_invoices := [];
                connected := false; executed := [] |};
     w_disk := disk_ok; w_trace := [] |}.

End Reference.

(** ** The searches as the handler runs them *)

Section Searches.
Context `{PG : Postgres}.

(** [build_search_query] followed by [cur.execute] and [fetchall]. *)
Definition run_search (params : object) (is_fuzzy : bool)
    : M database (list (formula_row * Q)) :=
  let* search := lift (build_search_query params is_fuzzy) in
  execute_ranked search.1 search.2.

(** [build_count_query] followed by [cur.execute] and [fetchone]. *)
Definition run_count (params : object) (is_fuzzy : bool) : M database Z :=
  let* count := lift (build_count_query params is_fuzzy) in
  execute_count count.1 count.2.

(** The WHERE clause of the two fuzzy statements with, in each
    placeholder, the parameter that the comments of the builders give
    it. *)
Definition fuzzy_where_bound (q : string) (threshold : Q) (max_distance : Z)
    : list bound_disjunct :=
  [b_ts_match q;
   b_sim_gt col_name q threshold;
   b_sim_gt col_description q threshold;
   b_lev_le col_name q (inject_Z max_distance);
   b_lev_le col_description q (inject_Z max_distance)].

(** The rows a statement's WHERE clause selects from a table, once the
    driver and the server have put the parameters in place. *)
Definition search_selects (params : object) (is_fuzzy : bool)
    (rows : list formula_row) : res (list formula_row) :=
  let? search := build_search_query params is_fuzzy in
  let? _ := check_arity (ranked_placeholders search.1) search.2 in
  let? b := (bind_ranked search.1 search.2).1 in
  Ok (filter (λ r, where_holds (br_where b) r) rows).

Definition count_selects (params : object) (is_fuzzy : bool)
    (rows : list formula_row) : res (list formula_row) :=
  let? count := build_count_query params is_fuzzy in
  let? _ := check_arity (count_placeholders count.1) count.2 in
  let? w := (bind_count count.1 count.2).1 in
  Ok (filter (λ r, where_holds w r) rows).

(** The parameters of a ranked statement that stand between those of
    the rank and those of LIMIT and OFFSET. *)
Definition where_args (search : ranked_query * list value) : list value :=
  let args := search.2 in
  drop (1 + length (rq_sims search.1)) (take (length args - 2) args).

(** The parameter object of a search: the model's fields, with a fuzzy
    configuration when one is supplied. *)
Definition params_of (q : string) (page size : Z) (include : option string)
    (fuzzy : option (Q * Z)) : object :=
  match fuzzy with
  | Some (threshold, max_distance) =>
      with_fuzzy (SearchParams q page size include) threshold max_distance
  | None => SearchParams q page size include
  end.

End Searches.

(** ** The pages of a text search *)

Section Pages.
Context `{PG : Postgres}.




End Pages.

(** * The stores and handlers around the searches *)

(** ** [models/ingredient.py] *)

(** The dataclass [Ingredient]. *)
Module Ingredient.
Record t := {
  id : string;
  name : string;
  unit : string;
  cost_per_unit : Q;
  density : option Q;
}.
End Ingredient.

Section IngredientRepository.
Context `{PG : Postgres}.

(** The tuple of an INSERT or UPDATE, and the dataclass built from a
    fetched row. *)
Definition row_of_Ingredient (ingredient : Ingredient.t) : ingredient_row :=
  {| i_id := Ingredient.id ingredient; i_name := Ingredient.name ingredient;
     i_unit := Ingredient.unit ingredient;
     i_cost_per_unit := Ingredient.cost_per_unit ingredient;
     i_density := Ingredient.density ingredient |}.

Definition Ingredient_of_row (row : ingredient_row) : Ingredient.t :=
  {| Ingredient.id := i_id row; Ingredient.name := i_name row;
     Ingredient.unit := i_unit row;
     Ingredient.cost_per_unit := i_cost_per_unit row;
     Ingredient.density := i_density row |}.

(** Modelled from the spec: the declaration of the [ingredients] table
    is not part of the sources; the specification gives an ingredient a
    unique identifier and makes creation fail with a constraint
    violation on a duplicate name, so a row whose id or name is already
    stored is refused. *)
Definition insert_ingredient (row : ingredient_row) : M database unit :=
  run statement t_ingredients then
  let* db := get in
  if decide (i_id row ∈ i_id <$> tbl_ingredients db
             ∨ i_name row ∈ i_name <$> tbl_ingredients db)
  then raise IntegrityError
  else put (with_ingredients (tbl_ingredients db ++ [row]) db).

Definition IngredientRepository_create (ingredient : Ingredient.t)
    : M database Ingredient.t :=
  try_except
    (run insert_ingredient (row_of_Ingredient ingredient) then
     ret ingredient)
    log_and_reraise.

(** SELECT id, name, unit, cost_per_unit, density FROM ingredients
    WHERE id = %s, then [fetchone()]. *)
Definition select_ingredient_by_id (ingredient_id : string)
    : M database (option ingredient_row) :=
  run statement t_ingredients then
  let* db := get in
  ret (head (filter (λ r, i_id r = ingredient_id) (tbl_ingredients db))).

Definition IngredientRepository_get_by_id (ingredient_id : string)
    : M database (option Ingredient.t) :=
  try_except
    (let* row := select_ingredient_by_id ingredient_id in
     match row with
     | None => ret None
     | Some row => ret (Some (Ingredient_of_row row))
     end)
    log_and_reraise.

(** [if name_filter:] adds WHERE name ILIKE %s with the parameter
    [f"%{name_filter}%"]; [None] and the empty string add nothing. *)
Definition name_filter_holds (name_filter : option string) (r : ingredient_row)
    : bool :=
  if truthy name_filter
  then pg_ilike (i_name r) ("%" +:+ default "" name_filter +:+ "%")
  else true.


(** UPDATE ingredients SET name = %s, unit = %s, cost_per_unit = %s,
    density = %s WHERE id = %s [RETURNING ...]: the row with the id is
    replaced; the rows RETURNING gives are the result. Modelled from
    the spec, as for the INSERT: a name that another row holds is
    refused. *)
Definition update_ingredient_rows (ingredient_id name unit : string)
    (cost_per_unit : Q) (density : option Q)
    : M database (list ingredient_row) :=
  run statement t_ingredients then
  let* db := get in
  let rows := tbl_ingredients db in
  if decide (ingredient_id ∈ i_id <$> rows
             ∧ name ∈ i_name <$> filter (λ r, i_id r ≠ ingredient_id) rows)
  then raise IntegrityError
  else
    let updated := {| i_id := ingredient_id; i_name := name; i_unit := unit;
                      i_cost_per_unit := cost_per_unit; i_density := density |} in
    run put (with_ingredients
               ((λ r, if decide (i_id r = ingredient_id) then updated else r)
                  <$> rows) db) then
    ret ((λ _, updated) <$> filter (λ r, i_id r = ingredient_id) rows).


End IngredientRepository.

(** ** [models/formula.py]: listing, updating and deleting *)

Section FormulaStore.
Context `{PG : Postgres}.

(** [list_all]: SELECT ... FROM formulas LIMIT {size} OFFSET {offset},
    then SELECT COUNT( * ) FROM formulas. *)
Definition FormulaRepository_list_all (page size : Z)
    : M database (list Formula * Z) :=
  try_except
    (let offset := (page - 1) * size in
     let* rows :=
       (run statement t_formulas then
        let* db := get in
        lift (limit_offset size offset (tbl_formulas db))) in
     let* total_count :=
       (run statement t_formulas then
        let* db := get in
        ret (Z.of_nat (length (tbl_formulas db)))) in
     ret (Formula_of_row <$> rows, total_count))
    log_and_reraise.



(** DELETE FROM formulas WHERE id = %s *)
Definition delete_formula_rows (formula_id : string) : M database unit :=
  run statement t_formulas then
  let* db := get in
  put (with_formulas (filter (λ r, f_id r ≠ formula_id) (tbl_formulas db)) db).

Definition FormulaRepository_delete (formula_id : string) : M database unit :=
  try_except (delete_formula_rows formula_id) log_and_reraise.

End FormulaStore.

(** ** The ingredient and formula handlers of [main.py] *)

Section CrudHandlers.
Context `{PG : Postgres}.

(** The [except] clauses that name the classes of psycopg errors; any
    other exception, an HTTPException too, leaves the handler as it
    is. *)
Definition database_errors_only {A} (e : exn) : M database A :=
  match e with
  | OperationalError => raise (HTTPException 503 "Database connection error")
  | DataError => raise (HTTPException 400 "Invalid data format")
  | ProgrammingError => raise (HTTPException 500 "Database programming error")
  | _ => raise e
  end.

Definition item_of_Ingredient (ingredient : Ingredient.t) : ingredient_item :=
  {| ii_id := Ingredient.id ingredient; ii_name := Ingredient.name ingredient;
     ii_unit := Ingredient.unit ingredient;
     ii_cost_per_unit := Ingredient.cost_per_unit ingredient;
     ii_density := Ingredient.density ingredient |}.


(** GET /api/v1/ingredients/{ingredient_id} *)
Definition get_ingredient (ingredient_id : string) : M database ingredient_item :=
  try_except
    (let* row := select_ingredient_by_id ingredient_id in
     match row with
     | None => raise (HTTPException 404 "Ingredient not found")
     | Some row => ret (ingredient_item_of row)
     end)
    database_errors_only.

(** PATCH /api/v1/ingredients/{ingredient_id}; the attributes are those
    of the validated payload. After the UPDATE, [row = fetchone()] is
    subscripted. *)
Definition update_ingredient (ingredient_id name unit : string)
    (cost_per_unit : Q) (density : option Q) : M database ingredient_item :=
  try_except
    (let* found := select_ingredient_id ingredient_id in
     match found with
     | None => raise (HTTPException 404 "Ingredient not found")
     | Some _ =>
         let* returned := update_ingredient_rows ingredient_id name unit
                            cost_per_unit density in
         match head returned with
         | Some row => ret (ingredient_item_of row)
         | None => raise TypeError
         end
     end)
    (λ e, raise (HTTPException 500 "Failed to update ingredient")).

(** SELECT id FROM formulas WHERE id = %s, then [fetchone()] *)
Definition select_formula_id (formula_id : string) : M database (option string) :=
  run statement t_formulas then
  let* db := get in
  ret (head (filter (λ i, i = formula_id) (f_id <$> tbl_formulas db))).

(** DELETE /api/v1/formulas/{formula_id} *)
Definition delete_formula (formula_id : string) : M database unit :=
  try_except
    (let* found := select_formula_id formula_id in
     match found with
     | None => raise (HTTPException 404 "Formula not found")
     | Some _ => delete_formula_rows formula_id
     end)
    (λ e, raise (HTTPException 500 "Failed to delete formula")).

(** A formula as the listing handlers answer it: [mass] is part of the
    attributes in [get_formulas] only; the relationship data are the
    ingredient ids with their percentages. *)
Record formula_resource := {
  fr_id : string;
  fr_name : string;
  fr_description : option string;
  fr_mass : option Q;
  fr_ingredients : list (string * Q);
}.

(** The loop over [row[3].items()]: one SELECT ... FROM ingredients
    WHERE id = %s per item; an item is appended when the ingredient is
    found. *)
Fixpoint related_ingredients (items : list (string * Q))
    : M database (list (string * Q)) :=
  match items with
  | [] => ret []
  | (ingredient_id, percentage) :: rest =>
      let* ingredient_row := select_ingredient_by_id ingredient_id in
      let* data := related_ingredients rest in
      ret (match ingredient_row with
           | Some r => (i_id r, percentage) :: data
           | None => data
           end)
  end.

(** GET /api/v1/formulas *)
Definition get_formulas : M database (list formula_resource) :=
  try_except
    (let* rows :=
       (run statement t_formulas then
        let* db := get in ret (tbl_formulas db)) in
     mapM (λ row,
             let* data := related_ingredients (f_ingredients row) in
             ret {| fr_id := f_id row; fr_name := f_name row;
                    fr_description := f_description row;
                    fr_mass := Some (f_mass row);
                    fr_ingredients := data |})
          rows)
    database_errors_only.

(** GET /api/v1/formulas/by-ingredient/{ingredient_id}: no [try]. *)
Definition get_formulas_by_ingredient (ingredient_id : string)
    : M database (list formula_resource) :=
  let* found := select_ingredient_id ingredient_id in
  match found with
  | None => raise (HTTPException 404 "Ingredient not found")
  | Some _ =>
      let* rows :=
        (run statement t_formulas then
         let* db := get in
         ret (filter (λ f, references ingredient_id f) (tbl_formulas db))) in
      mapM (λ row,
              let* data := related_ingredients (f_ingredients row) in
              ret {| fr_id := f_id row; fr_name := f_name row;
                     fr_description := f_description row;
                     fr_mass := None;
                     fr_ingredients := data |})
           rows
  end.


Definition GET_ingredient (ingredient_id : string) (db : database)
    : response ingredient_item * database :=
  let '(r, db') := get_ingredient ingredient_id db in (respond 200 r, db').

Definition PATCH_ingredient (ingredient_id name unit : string)
    (cost_per_unit : Q) (density : option Q) (db : database)
    : response ingredient_item * database :=
  let '(r, db') := update_ingredient ingredient_id name unit cost_per_unit
                     density db in
  (respond 200 r, db').

Definition DELETE_formula (formula_id : string) (db : database)
    : response unit * database :=
  let '(r, db') := delete_formula formula_id db in (respond 204 r, db').

Definition GET_formulas (db : database)
    : response (list formula_resource) * database :=
  let '(r, db') := get_formulas db in (respond 200 r, db').

End CrudHandlers.

(** ** [models/invoice.py]: fetching and deleting *)

Section InvoiceStore.
Context `{PG : Postgres}.

Definition Invoice_of_row (row : invoice_row) : Invoice :=
  {| invoice_id := inv_id row; date := inv_date row;
     supplier := inv_supplier row; pdf_path := inv_pdf_path row;
     invoice_ingredients := inv_ingredients row |}.

(** SELECT ... FROM invoices WHERE id = %s, then [fetchone()] *)
Definition select_invoice_by_id (invoice_id : string)
    : M database (option invoice_row) :=
  run statement t_invoices then
  let* db := get in
  ret (head (filter (λ r, inv_id r = invoice_id) (tbl_invoices db))).

Definition InvoiceRepository_get_by_id (invoice_id : string)
    : M world (option Invoice) :=
  try_except
    (let* row := on_db (select_invoice_by_id invoice_id) in
     match row with
     | None => ret None
     | Some row => ret (Some (Invoice_of_row row))
     end)
    log_and_reraise.

(** DELETE FROM invoices WHERE id = %s *)
Definition delete_invoice_rows (invoice_id : string) : M database unit :=
  run statement t_invoices then
  let* db := get in
  put (with_invoices (filter (λ r, inv_id r ≠ invoice_id) (tbl_invoices db)) db).

(** [InvoiceRepository.delete]: the path is read from the row, the row
    is deleted, then the file. Database errors are passed on; an
    OSError of the file removal is logged and dropped. *)
Definition InvoiceRepository_delete (upload_dir : string) (invoice_id : string)
    : M world unit :=
  try_except
    (let* row := on_db (select_invoice_by_id invoice_id) in
     match row with
     | None => ret tt
     | Some row =>
         let pdf_path := inv_pdf_path row in
         let file_path := os_path_join upload_dir pdf_path in
         run on_db (delete_invoice_rows invoice_id) then
         let* present := os_path_exists file_path in
         if present : bool then os_remove file_path else ret tt
     end)
    (λ e,
       match e with
       | OSError => ret tt
       | _ => raise e
       end).

End InvoiceStore.

(** ** [schemas.py]: the validated attributes of an ingredient

    A [str] is the list of its characters; which characters are
    whitespace is Python's to say ([str.isspace]). *)

Module Schemas.
Section Validators.
Context {char : Type} (isspace : char → bool).

(** [v.strip()] *)
Definition strip (v : list char) : list char :=
  reverse (drop_while isspace (reverse (drop_while isspace v))).

(** The bounds of [Field(..., min_length=, max_length=)], checked on
    the value as given, before the validators of the class. *)
Definition constrained_str (min_length max_length : nat) (v : list char)
    : res (list char) :=
  if (min_length <=? length v)%nat && (length v <=? max_length)%nat
  then Ok v else Raise ValidationError.

(** [validate_name] and [validate_unit]:
    [if not v.strip(): raise ValueError(...)], else [return v.strip()]. *)
Definition validate_name (v : list char) : res (list char) :=
  match strip v with
  | [] => Raise ValidationError
  | s => Ok s
  end.

Definition validate_unit (v : list char) : res (list char) :=
  match strip v with
  | [] => Raise ValidationError
  | s => Ok s
  end.

(** [Field(..., ge=0)] on a number, and on an optional one. *)
Definition ge_0 (x : Q) : res Q :=
  if Qle_bool 0 x then Ok x else Raise ValidationError.

Definition optional_ge_0 (x : option Q) : res (option Q) :=
  match x with
  | None => Ok None
  | Some y => rmap Some (ge_0 y)
  end.

Record IngredientAttributes := {
  name : list char;
  unit : list char;
  cost_per_unit : Q;
  density : option Q;
}.

(** [IngredientAttributes(name=..., unit=..., cost_per_unit=...,
    density=...)]: every field is checked; any failure makes the
    construction raise. *)
Definition IngredientAttributes_init (name unit : list char)
    (cost_per_unit : Q) (density : option Q) : res IngredientAttributes :=
  let name := rbind (constrained_str 1 255 name) validate_name in
  let unit := rbind (constrained_str 1 50 unit) validate_unit in
  let cost_per_unit := ge_0 cost_per_unit in
  let density := optional_ge_0 density in
  match name, unit, cost_per_unit, density with
  | Ok n, Ok u, Ok c, Ok d =>
      Ok {| name := n; unit := u; cost_per_unit := c; density := d |}
  | _, _, _, _ => Raise ValidationError
  end.

End Validators.
End Schemas.

(** ** What a handler leaves behind *)

Section Footprint.
Context `{PG : Postgres}.

(** The tables and the connection are as before; statements may have
    been sent. *)
Definition unchanged (db db' : database) : Prop :=
  tbl_ingredients db' = tbl_ingredients db
  ∧ tbl_formulas db' = tbl_formulas db
  ∧ tbl_invoices db' = tbl_invoices db
  ∧ connected db' = connected db.

(** The relationship data that the listing handlers build for a
    mapping: the items whose ingredient is stored. *)
Definition stored_items (db : database) (items : list (string * Q))
    : list (string * Q) :=
  filter (λ item, item.1 ∈ i_id <$> tbl_ingredients db) items.

End Footprint.

Section Resources.
Context `{PG : Postgres}.

(** The resource of a formula row in [get_formulas] and in
    [get_formulas_by_ingredient], given what the database holds. *)
Definition listed_formula (db : database) (row : formula_row) : formula_resource :=
  {| fr_id := f_id row; fr_name := f_name row;
     fr_description := f_description row; fr_mass := Some (f_mass row);
     fr_ingredients := stored_items db (f_ingredients row) |}.

Definition formula_using (db : database) (row : formula_row) : formula_resource :=
  {| fr_id := f_id row; fr_name := f_name row;
     fr_description := f_description row; fr_mass := None;
     fr_ingredients := stored_items db (f_ingredients row) |}.

End Resources.

(** ** More concrete data over the small engine *)

Module Fixtures.

(** An ingredient that [Reference.tea_db] does not hold, and a new
    description of the one it holds. *)
Definition mint : Ingredient.t :=
  {| Ingredient.id := "i2"; Ingredient.name := "Mint"; Ingredient.unit := "g";
     Ingredient.cost_per_unit := 3 # 1; Ingredient.density := None |}.



(** A world whose disk works and whose connection is up. *)
Definition online : world (PG := Reference.pg) :=
  {| w_fs := ∅; w_db := Reference.tea_db; w_disk := disk_ok; w_trace := [] |}.


(** Blank, tab, line feed and carriage return. *)
Definition isspace (c : ascii) : bool :=
  bool_decide (c ∈ [" "%char; "009"%char; "010"%char; "013"%char]).

(** The attributes of a payload, as typed and as accepted. *)
Definition padded_name : list ascii := list_ascii_of_string " Mint ".
Definition gram : list ascii := list_ascii_of_string "g".
Definition blank : list ascii := list_ascii_of_string "  ".

Definition mint_attributes : Schemas.IngredientAttributes :=
  {| Schemas.name := list_ascii_of_string "Mint"; Schemas.unit := gram;
     Schemas.cost_per_unit := 3 # 1; Schemas.density := None |}.

End Fixtures.

(** * Proofs *)

Ltac step_monad :=
  cbv [bind lift get put ret raise try_except log_and_reraise statement
       check_arity]; simpl.

(** ** Text search without a fuzzy configuration *)

Section TextSearch.
Context `{PG : Postgres}.




















End TextSearch.

(** ** Search with a fuzzy configuration *)

Section FuzzySearch.
Context `{PG : Postgres}.

Lemma fuzzy_branch_needs_attribute q page size include :
  build_search_query (SearchParams q page size include) true
    = Raise (AttributeError "fuzzy")
  ∧ build_count_query (SearchParams q page size include) true
    = Raise (AttributeError "fuzzy").
Proof. split; reflexivity. Qed.

Lemma fuzzy_search_query_shape q page size include t d :
  build_search_query (with_fuzzy (SearchParams q page size include) t d) true
  = Ok ({| rq_sims := [col_name; col_description]; rq_where := fuzzy_where;
           rq_limit := Placeholder; rq_offset := Placeholder |},
        [Atom (VStr q); Atom (VStr q); Atom (VStr q);
         Atom (VStr q); Atom (VStr q);
         Atom (VStr q); Atom (VFloat t);
         Atom (VStr q); Atom (VFloat t);
         Atom (VStr q); Atom (VInt d);
         Atom (VStr q); Atom (VInt d);
         Atom (VInt size); Atom (VInt ((page - 1) * size))]).
Proof. reflexivity. Qed.

Lemma fuzzy_count_query_shape q page size include t d :
  build_count_query (with_fuzzy (SearchParams q page size include) t d) true
  = Ok ({| cq_where := fuzzy_where |},
        [Atom (VStr q); Atom (VStr q);
         Atom (VStr q); Atom (VFloat t);
         Atom (VStr q); Atom (VFloat t);
         Atom (VStr q); Atom (VInt d);
         Atom (VStr q); Atom (VInt d)]).
Proof. reflexivity. Qed.

Lemma fuzzy_search_raises q page size include t d db :
  run_search (with_fuzzy (SearchParams q page size include) t d) true db
  = (Raise ProgrammingError, db).
Proof. reflexivity. Qed.

Lemma fuzzy_count_raises q page size include t d db :
  run_count (with_fuzzy (SearchParams q page size include) t d) true db
  = (Raise ProgrammingError, db).
Proof. reflexivity. Qed.

Lemma sql_or_true_l b : sql_or (Some true) b = Some true.
Proof. by destruct b as [[]|]. Qed.

Lemma where_holds_exists w r :
  where_holds w r = true ↔ ∃ d, d ∈ w ∧ holds d r = Some true.
Proof.
  unfold where_holds.
  assert (Hfold : ∀ w, foldr (λ d acc, sql_or (holds d r) acc) (Some false) w = Some true
                    ↔ ∃ d, d ∈ w ∧ holds d r = Some true).
  { clear w. induction w as [|d w IH]; simpl.
    - split; [done | intros (d & Hd & _); by apply elem_of_nil in Hd].
    - split.
      + intros Hor. destruct (holds d r) as [[]|] eqn:Hd.
        * exists d. split; [left | done].
        * destruct (foldr _ _ w) as [[]|] eqn:Hw; try done.
          destruct (proj1 IH eq_refl) as (d' & Hin & Hd').
          exists d'. split; [by right | done].
        * destruct (foldr _ _ w) as [[]|] eqn:Hw; try done.
          destruct (proj1 IH eq_refl) as (d' & Hin & Hd').
          exists d'. split; [by right | done].
      + intros (d' & Hin & Hd'). apply elem_of_cons in Hin as [-> | Hin].
        * rewrite Hd'. apply sql_or_true_l.
        * rewrite (proj2 IH) by eauto. by destruct (holds d r) as [[]|]. }
  specialize (Hfold w).
  destruct (foldr _ _ w) as [[]|]; split; try done.
  - intros _. by apply Hfold.
  - intros H. apply Hfold in H. done.
  - intros H. apply Hfold in H. done.
Qed.

Lemma Qgtb_lt a b : Qgtb a b = true ↔ (b < a)%Q.
Proof.
  unfold Qgtb. rewrite negb_true_iff, <- not_true_iff_false, Qle_bool_iff.
  split; [apply Qnot_le_lt | apply Qlt_not_le].
Qed.

Lemma Qle_bool_inject x d : Qle_bool (inject_Z x) (inject_Z d) = true ↔ x ≤ d.
Proof. by rewrite Qle_bool_iff, <- Zle_Qle. Qed.

(** The WHERE clause of the fuzzy statements, with the parameters the
    builders' comments give it, is the disjunction of the five
    conditions. *)
Lemma fuzzy_where_bound_holds q t d r :
  where_holds (fuzzy_where_bound q t d) r = true ↔
    pg_ts_match (f_search_vector r) q = true
    ∨ (t < pg_similarity (f_name r) q)%Q
    ∨ (∃ txt, f_description r = Some txt ∧ (t < pg_similarity txt q)%Q)
    ∨ pg_levenshtein (pg_lower (f_name r)) (pg_lower q) ≤ d
    ∨ (∃ txt, f_description r = Some txt
              ∧ pg_levenshtein (pg_lower txt) (pg_lower q) ≤ d).
Proof.
  rewrite where_holds_exists. unfold fuzzy_where_bound. split.
  - intros (x & Hin & Hx).
    repeat (apply elem_of_cons in Hin as [-> | Hin]); simpl in Hx.
    + left. congruence.
    + right; left. apply Qgtb_lt. congruence.
    + right; right; left. destruct (f_description r) as [txt|]; [|done].
      exists txt. split; [done|]. apply Qgtb_lt. simpl in Hx. congruence.
    + right; right; right; left. apply Qle_bool_inject. congruence.
    + right; right; right; right. destruct (f_description r) as [txt|]; [|done].
      exists txt. split; [done|]. apply Qle_bool_inject. simpl in Hx. congruence.
    + by apply elem_of_nil in Hin.
  - intros [H | [H | [(txt & Hd & H) | [H | (txt & Hd & H)]]]].
    + exists (b_ts_match q). split; [set_solver|]. simpl. by rewrite H.
    + exists (b_sim_gt col_name q t). split; [set_solver|]. simpl.
      apply Qgtb_lt in H. by rewrite H.
    + exists (b_sim_gt col_description q t). split; [set_solver|]. simpl.
      rewrite Hd. simpl. apply Qgtb_lt in H. by rewrite H.
    + exists (b_lev_le col_name q (inject_Z d)). split; [set_solver|]. simpl.
      apply Qle_bool_inject in H. by rewrite H.
    + exists (b_lev_le col_description q (inject_Z d)). split; [set_solver|]. simpl.
      rewrite Hd. simpl. apply Qle_bool_inject in H. by rewrite H.
Qed.

(** The score that the SELECT list of the fuzzy statement names. *)
Lemma fuzzy_rank_is_greatest q r :
  rank_of q [(col_name, q); (col_description, q)] r
  = Qmax (pg_similarity (f_name r) q)
         (match f_description r with
          | Some txt => Qmax (pg_similarity txt q)
                             (pg_ts_rank_cd (f_search_vector r) q)
          | None => pg_ts_rank_cd (f_search_vector r) q
          end).
Proof. unfold rank_of. simpl. by destruct (f_description r). Qed.

Lemma Qmax_upper a b : (a <= Qmax a b)%Q ∧ (b <= Qmax a b)%Q.
Proof.
  unfold Qmax. destruct (Qle_bool a b) eqn:H.
  - apply Qle_bool_iff in H. split; [done | apply Qle_refl].
  - split; [apply Qle_refl|]. apply Qlt_le_weak, Qnot_le_lt.
    intros Hle. apply Qle_bool_iff in Hle. congruence.
Qed.

Lemma Qmax_attained a b : Qmax a b = a ∨ Qmax a b = b.
Proof. unfold Qmax. destruct (Qle_bool a b); auto. Qed.

(** C2: for a search with a fuzzy configuration the statement names as
    rank the GREATEST of the text-search rank and the similarities of
    name and description to the query (its first three parameters are
    the query; no edit distance occurs in it), but the statement has 14
    placeholders and is given 15 parameters, so the driver raises
    ProgrammingError: no score is computed and no row is returned in
    any order. *)
Theorem fuzzy_rank_never_computed q page size include t d db :
  ∃ search,
    build_search_query (with_fuzzy (SearchParams q page size include) t d) true
      = Ok search
    ∧ rq_sims search.1 = [col_name; col_description]
    ∧ take 3 search.2 = [Atom (VStr q); Atom (VStr q); Atom (VStr q)]
    ∧ ranked_placeholders search.1 = 14%nat
    ∧ length search.2 = 15%nat
    ∧ run_search (with_fuzzy (SearchParams q page size include) t d) true db
      = (Raise ProgrammingError, db).
Proof. eexists. split; [reflexivity|]. repeat split. Qed.

(** C6: for a search with or without a fuzzy configuration, the
    counting statement and the ranked statement have the same WHERE
    clause and the same parameters for it, and select the same rows from
    every table: the outcomes of putting the parameters in place and
    filtering are equal. *)
Theorem count_where_same_as_search q page size include fuzzy is_fuzzy
    (rows : list formula_row) :
  let params := params_of q page size include fuzzy in
  search_selects params is_fuzzy rows = count_selects params is_fuzzy rows
  ∧ rmap (λ s, rq_where s.1) (build_search_query params is_fuzzy)
    = rmap (λ c, cq_where c.1) (build_count_query params is_fuzzy)
  ∧ rmap where_args (build_search_query params is_fuzzy)
    = rmap snd (build_count_query params is_fuzzy).
Proof.
  destruct fuzzy as [[t d]|], is_fuzzy; repeat split.
Qed.

Lemma plain_search_selects q page size include fuzzy (rows : list formula_row) :
  search_selects (params_of q page size include fuzzy) false rows
  = Ok (filter (λ r, pg_ts_match (f_search_vector r) q) rows).
Proof.
  destruct fuzzy as [[t d]|]; unfold search_selects; simpl; f_equal;
    apply list_filter_iff; intros r; unfold where_holds; simpl;
    by destruct (pg_ts_match _ _).
Qed.

Lemma fuzzy_selects_nothing q page size include t d (rows : list formula_row) :
  search_selects (params_of q page size include (Some (t, d))) true rows
  = Raise ProgrammingError
  ∧ count_selects (params_of q page size include (Some (t, d))) true rows
  = Raise ProgrammingError.
Proof. split; reflexivity. Qed.

End FuzzySearch.

(** C1: a formula named "Chamomile" is within edit distance 2 of the
    query "chamomile" (and matches it as text), so it satisfies the
    inclusion conditions of a fuzzy search with threshold 0.3 and
    distance 2; the search statement and the counting statement are
    both refused by the driver, and the row is not returned. *)
Theorem fuzzy_search_fails_to_bind :
  let row := Reference.formula "f1" "Chamomile" None [] (100 # 1) in
  let db := Reference.db_of [] [row] in
  let params := with_fuzzy (SearchParams "chamomile" 1 10 None) (3 # 10) 2 in
  where_holds (PG := Reference.pg) (fuzzy_where_bound "chamomile" (3 # 10) 2) row
    = true
  ∧ run_search params true db = (Raise ProgrammingError, db)
  ∧ run_count params true db = (Raise ProgrammingError, db).
Proof. cbv zeta. repeat split. Qed.

(** ** The search handlers *)

Section Handlers.
Context `{PG : Postgres}.

Lemma resolve_SearchParams_Ok rq params :
  resolve_SearchParams rq = Ok params →
  ∃ q page size,
    arg_q rq = Some q ∧ 1 ≤ page ∧ 1 ≤ size ≤ 100
    ∧ params = SearchParams q page size (arg_include rq).
Proof.
  unfold resolve_SearchParams. destruct (arg_q rq) as [q|]; [|done].
  destruct (decide _) as [Hr|]; [|done]. intros [= <-].
  exists q, (default 1 (arg_page rq)), (default 10 (arg_size rq)).
  by destruct Hr.
Qed.

Lemma search_formulas_raises q page size include db :
  search_formulas (SearchParams q page size include) db
  = (Raise (AttributeError "fuzzy"), db).
Proof. reflexivity. Qed.

(** C4, as amended: for every request whose parameters pass the
    validation of SearchParams, the handler reads [params.fuzzy] in its
    first logging call, outside its [try]: the AttributeError leaves the
    handler as it is, no statement has been sent, and the application's
    handler for any exception answers 500. *)
Theorem search_formulas_never_answers rq params db :
  resolve_SearchParams rq = Ok params →
  search_formulas params db = (Raise (AttributeError "fuzzy"), db)
  ∧ GET_search_formulas rq db
    = (Failure 500 "An unexpected error occurred", db).
Proof.
  intros Hres. unfold GET_search_formulas. rewrite Hres.
  apply resolve_SearchParams_Ok in Hres as (q & page & size & _ & _ & _ & ->).
  by rewrite search_formulas_raises.
Qed.

Lemma missing_query_rejected page size include db :
  GET_search_formulas
    {| arg_q := None; arg_page := page; arg_size := size; arg_include := include |} db
  = (Failure 422 "Unprocessable Entity", db).
Proof. reflexivity. Qed.

(** C8: a request with the empty query string passes the validation
    of SearchParams and is answered with 500, a server error; nothing is
    sent to the database. *)
Theorem empty_query_is_server_error include db :
  resolve_SearchParams
    {| arg_q := Some ""; arg_page := None; arg_size := None; arg_include := include |}
  = Ok (SearchParams "" 1 10 include)
  ∧ GET_search_formulas
      {| arg_q := Some ""; arg_page := None; arg_size := None; arg_include := include |} db
    = (Failure 500 "An unexpected error occurred", db).
Proof. split; reflexivity. Qed.

(** C5: a formula search for page 2 of size 10 is answered with 500
    on every database, also where page 2 lies beyond the last page; it
    is not answered with an empty page. *)
Theorem formula_search_page_is_error db :
  GET_search_formulas
    {| arg_q := Some "tea"; arg_page := Some 2; arg_size := Some 10;
       arg_include := None |} db
  = (Failure 500 "An unexpected error occurred", db).
Proof. reflexivity. Qed.

Lemma plain_search_query_shape q page size include :
  build_search_query (SearchParams q page size include) false
  = Ok ({| rq_sims := []; rq_where := [ts_match];
           rq_limit := Placeholder; rq_offset := Placeholder |},
        [Atom (VStr q); Atom (VStr q);
         Atom (VInt size); Atom (VInt ((page - 1) * size))]).
Proof. reflexivity. Qed.





Lemma missing_search_term_is_server_error page size db :
  GET_search_ingredients None None page size db
  = (Failure 500 "An unexpected error occurred", db).
Proof. reflexivity. Qed.

End Handlers.

(** C4, as stated, fails: a request without [q] is answered 422 and
    does not reach the handler; and on a valid request the handler's
    result is not the HTTPException of its own [except] clause. *)
Lemma search_formulas_counterexample :
  GET_search_formulas (PG := Reference.pg)
    {| arg_q := None; arg_page := None; arg_size := None; arg_include := None |}
    (Reference.db_of [] [])
  = (Failure 422 "Unprocessable Entity", Reference.db_of [] [])
  ∧ search_formulas (PG := Reference.pg) (SearchParams "tea" 1 10 None)
      (Reference.db_of [] [])
    ≠ (Raise (HTTPException 500 "Failed to search formulas"), Reference.db_of [] []).
Proof. split; [reflexivity | discriminate]. Qed.

Lemma search_formulas_never_answers_witness :
  search_formulas (PG := Reference.pg) (SearchParams "tea" 1 10 None)
      (Reference.db_of [] [])
    = (Raise (AttributeError "fuzzy"), Reference.db_of [] [])
  ∧ GET_search_formulas (PG := Reference.pg)
      {| arg_q := Some "tea"; arg_page := None; arg_size := None;
         arg_include := None |} (Reference.db_of [] [])
    = (Failure 500 "An unexpected error occurred", Reference.db_of [] []).
Proof.
  apply (search_formulas_never_answers (PG := Reference.pg)
           {| arg_q := Some "tea"; arg_page := None; arg_size := None;
              arg_include := None |}).
  reflexivity.
Defined.

(** ** Formula round trip *)

Section RoundTrip.
Context `{PG : Postgres}.




End RoundTrip.

(** ** Deleting ingredients *)

Section Deletion.
Context `{PG : Postgres}.

Lemma head_filter_present (i : string) (ids : list string) :
  i ∈ ids → head (filter (λ j, j = i) ids) = Some i.
Proof.
  induction ids as [|j ids IH]; [by intros ?%elem_of_nil|].
  intros Hin. destruct (decide (j = i)) as [->|Hne].
  - by rewrite filter_cons_True.
  - rewrite filter_cons_False by done. apply IH.
    apply elem_of_cons in Hin as [?|?]; [congruence | done].
Qed.

Lemma delete_referenced_ingredient ingredient_id db :
  connected db = true →
  ingredient_id ∈ i_id <$> tbl_ingredients db →
  0 < referencing ingredient_id db →
  ∃ db', DELETE_ingredient ingredient_id db
           = (Failure 500 "Failed to delete ingredient", db')
         ∧ tbl_ingredients db' = tbl_ingredients db.
Proof.
  intros Hc Hin Href.
  unfold DELETE_ingredient, delete_ingredient, select_ingredient_id,
    count_referencing.
  step_monad. rewrite Hc. simpl. rewrite head_filter_present by done.
  simpl. rewrite Hc. simpl.
  fold (referencing ingredient_id db).
  destruct (decide _) as [_|Hn]; [|unfold referencing in *; simpl in *; lia].
  simpl. eexists. split; reflexivity.
Qed.

Lemma delete_unreferenced_ingredient ingredient_id db :
  connected db = true →
  ingredient_id ∈ i_id <$> tbl_ingredients db →
  referencing ingredient_id db = 0 →
  ∃ db', DELETE_ingredient ingredient_id db = (Success 204 (), db')
         ∧ tbl_ingredients db'
           = filter (λ r, i_id r ∉ [ingredient_id]) (tbl_ingredients db).
Proof.
  intros Hc Hin Href.
  unfold DELETE_ingredient, delete_ingredient, select_ingredient_id,
    count_referencing, delete_ingredients.
  step_monad. rewrite Hc. simpl. rewrite head_filter_present by done.
  simpl. rewrite Hc. simpl.
  fold (referencing ingredient_id db). rewrite Href.
  destruct (decide _) as [?|_]; [lia|].
  simpl. rewrite Hc. simpl. eexists. split; reflexivity.
Qed.

Lemma filter_all_present (ids present : list string) :
  (∀ i, i ∈ ids → i ∈ present) → filter (λ i, i ∉ present) ids = [].
Proof.
  intros Hall. induction ids as [|i ids IH]; [done|].
  rewrite filter_cons_False.
  - apply IH. intros j Hj. apply Hall. by right.
  - intros Hn. apply Hn, Hall. left.
Qed.

Lemma bulk_delete_ignores_references payload_ids db :
  connected db = true →
  payload_ids ≠ [] →
  (∀ i, i ∈ payload_ids → i ∈ i_id <$> tbl_ingredients db) →
  ∃ db', DELETE_bulk_ingredients payload_ids db
           = (Success 200 (Z.of_nat (length payload_ids)), db')
         ∧ tbl_ingredients db'
           = filter (λ r, i_id r ∉ payload_ids) (tbl_ingredients db)
         ∧ tbl_formulas db' = tbl_formulas db.
Proof.
  intros Hc Hne Hall.
  unfold DELETE_bulk_ingredients, bulk_delete_ingredients, select_all_ingredients,
    select_ingredients_in, delete_ingredients.
  step_monad. rewrite Hc. simpl.
  rewrite length_fmap. destruct (decide _) as [_|?]; [|done]. simpl.
  rewrite Hc. simpl.
  destruct payload_ids as [|i0 rest] eqn:Hids; [done|]. rewrite <- Hids in *.
  simpl.
  rewrite filter_all_present.
  2:{ intros i Hi. apply list_elem_of_filter. split; [done | by apply Hall]. }
  simpl. rewrite Hids. simpl. rewrite Hc. simpl.
  eexists. split; [reflexivity|]. split; reflexivity.
Qed.

End Deletion.

(** C7: the ingredient "i1" is referenced by one formula. The bulk
    endpoint deletes it and answers 200; [IngredientRepository.delete]
    deletes it too; the single-delete handler leaves it stored but
    answers 500 "Failed to delete ingredient", without the count of
    referencing formulas. *)
Theorem referenced_ingredient_deleted_in_bulk :
  (∃ db', DELETE_bulk_ingredients ["i1"] Reference.tea_db = (Success 200 1, db')
          ∧ tbl_ingredients db' = []
          ∧ tbl_formulas db' = tbl_formulas Reference.tea_db)
  ∧ (∃ db', DELETE_ingredient "i1" Reference.tea_db
              = (Failure 500 "Failed to delete ingredient", db')
            ∧ tbl_ingredients db' = [Reference.chamomile])
  ∧ (∃ db', IngredientRepository_delete "i1" Reference.tea_db = (Ok (), db')
            ∧ tbl_ingredients db' = []).
Proof.
  split; [|split]; eexists; (split; [reflexivity|]); try split;
    reflexivity.
Qed.

(** ** Creating invoices *)

Section Invoices.
Context `{PG : Postgres}.

Lemma drop_while_nil {A} (f : A → bool) (l : list A) :
  drop_while f l = [] → forallb f l = true.
Proof.
  induction l as [|x l IH]; simpl; [done|].
  destruct (f x); [done | discriminate].
Qed.

Lemma drop_while_found {A} (f : A → bool) (l : list A) x :
  x ∈ l → f x = false → ∃ y rest, drop_while f l = y :: rest ∧ f y = false.
Proof.
  intros Hin Hx. induction l as [|z l IH]; [by apply elem_of_nil in Hin|].
  simpl. destruct (f z) eqn:Hz.
  - apply IH. apply elem_of_cons in Hin as [->|?]; [congruence | done].
  - eauto.
Qed.

Lemma string_of_list_ascii_nonempty (l : list ascii) :
  l ≠ [] → string_of_list_ascii l ≠ "".
Proof. by destruct l. Qed.

Lemma os_path_dirname_nonempty (p : string) :
  "/"%char ∈ list_ascii_of_string p → os_path_dirname p ≠ "".
Proof.
  intros Hin. unfold os_path_dirname.
  destruct (drop_while_found (λ c, negb (is_slash c))
              (reverse (list_ascii_of_string p)) "/"%char)
    as (y & rest & Hdrop & Hy).
  { by apply elem_of_reverse. }
  { done. }
  rewrite Hdrop. apply negb_false_iff in Hy.
  destruct (forallb is_slash (reverse (y :: rest))) eqn:Hall.
  - apply string_of_list_ascii_nonempty.
    rewrite reverse_cons. by destruct (reverse rest).
  - apply string_of_list_ascii_nonempty.
    intros Hnil. apply (f_equal reverse) in Hnil.
    rewrite reverse_involutive in Hnil. change (reverse []) with (@nil ascii) in Hnil.
    apply drop_while_nil in Hnil.
    rewrite forallb_forall in Hnil.
    assert (forallb is_slash (reverse (y :: rest)) = true); [|congruence].
    apply forallb_forall. intros c Hc. apply Hnil.
    apply list_elem_of_In. rewrite reverse_involutive.
    apply list_elem_of_In in Hc. by rewrite elem_of_reverse in Hc.
Qed.

Lemma list_ascii_of_string_app (a b : string) :
  list_ascii_of_string (a +:+ b)
  = (list_ascii_of_string a ++ list_ascii_of_string b)%list.
Proof. induction a as [|c a IH]; simpl; [done | by rewrite IH]. Qed.

Lemma generated_path_relative uuid :
  starts_with_slash (generated_pdf_path uuid) = false.
Proof. reflexivity. Qed.

Lemma generated_path_has_directory upload_dir uuid :
  os_path_dirname (os_path_join upload_dir (generated_pdf_path uuid)) ≠ "".
Proof.
  apply os_path_dirname_nonempty. unfold os_path_join.
  rewrite generated_path_relative.
  destruct (_ || _); rewrite !list_ascii_of_string_app; set_solver.
Qed.
Lemma os_path_join_under (a b : string) :
  starts_with_slash b = false → ∃ rest, os_path_join a b = a +:+ rest.
Proof.
  intros Hb. unfold os_path_join. rewrite Hb.
  destruct (_ || _); [by exists b | exists ("/" +:+ b)].
  done.
Qed.

(** C9: the file's path is [os.path.join(upload_dir, pdf_path)], which
    lies under the upload directory unless [pdf_path] is absolute, and
    every call of [InvoiceRepository.create] ends in one of three ways.
    When the disk works and the path has a directory part: with the
    connection up, the bytes are written to the path and then the row
    is inserted;
    with the connection down, the file is written, the insert raises,
    the file is removed again and the error is passed on, the table
    unchanged. In every other case the creation raises before anything
    is written in full and no row is inserted. So a row is inserted
    only after its file has been written. *)
Theorem invoice_file_then_row (upload_dir : string) (invoice : Invoice)
    (file : list Byte.byte) (w : world) :
  let path := os_path_join upload_dir (pdf_path invoice) in
  (if starts_with_slash (pdf_path invoice) then path = pdf_path invoice
   else ∃ rest, path = upload_dir +:+ rest)
  ∧ ∃ r w' suffix,
    InvoiceRepository_create upload_dir invoice file w = (r, w')
    ∧ w_trace w' = (w_trace w ++ suffix)%list
    ∧ match w_disk w, bool_decide (os_path_dirname path = ""),
            connected (w_db w) with
      | disk_ok, false, true =>
          r = Ok invoice
          ∧ suffix = [FileWritten path; RowInserted (invoice_id invoice)]
          ∧ w_fs w' = <[path := file]> (w_fs w)
          ∧ tbl_invoices (w_db w')
            = (tbl_invoices (w_db w) ++ [invoice_row_of invoice])%list
      | disk_ok, false, false =>
          r = Raise OperationalError
          ∧ suffix = [FileWritten path; FileRemoved path]
          ∧ w_fs w' = delete path (w_fs w)
          ∧ tbl_invoices (w_db w') = tbl_invoices (w_db w)
      | _, _, _ =>
          r = Raise OSError
          ∧ (suffix = [] ∨ suffix = [FileRemoved path])
          ∧ w_fs w' = delete path (w_fs w)
          ∧ tbl_invoices (w_db w') = tbl_invoices (w_db w)
      end.
Proof.
  intros path. split.
  { unfold path, os_path_join.
    destruct (starts_with_slash (pdf_path invoice)); [done|].
    destruct (_ || _); eauto. }
  unfold InvoiceRepository_create. fold path.
  unfold os_makedirs, write_file, insert_invoice, os_path_exists, os_remove, on_db.
  step_monad.
  destruct (bool_decide (os_path_dirname path = "")) eqn:Hdir,
    (w_disk w) eqn:Hdisk, (connected (w_db w)) eqn:Hc,
    (w_fs w !! path) as [old|] eqn:Hold;
    repeat (progress (simpl; rewrite ?Hdisk, ?Hc, ?lookup_insert_eq, ?Hold));
    do 3 eexists; (split; [reflexivity|]); simpl;
    (split; [first [reflexivity | symmetry; apply app_nil_r
                   | rewrite <- app_assoc; reflexivity] |]);
    rewrite ?delete_insert_eq, ?(delete_id _ _ Hold); auto 10.
Qed.

End Invoices.

(** ** The theorems at concrete tables *)



(** The search for "chamomile" finds the one formula that mentions it
    in its description. *)
Example search_finds_mint :
  (FormulaRepository_search "chamomile" 1 10 Reference.tea_db).1
  = Ok ([{| id := "f2"; name := "Mint";
            description := Some "fresh mint, no chamomile";
            ingredients := []; mass := 50 # 1 |}], 1).
Proof. reflexivity. Qed.

(** jsonb reorders the keys; the mapping is the same. *)
Example jsonb_reorders_keys :
  to_jsonb [("bb", 40 # 1); ("a", 60 # 1)] = [("a", 60 # 1); ("bb", 40 # 1)].
Proof. reflexivity. Qed.

(** With the connection down, the written file is removed again. *)
Example invoice_insert_fails_file_removed :
  ∃ w',
    InvoiceRepository_create UPLOAD_DIR Reference.herbs_invoice [] Reference.offline
      = (Raise OperationalError, w')
    ∧ w_trace w' = [FileWritten "uploads/invoices/invoices/0001.pdf";
                    FileRemoved "uploads/invoices/invoices/0001.pdf"]
    ∧ w_fs w' !! "uploads/invoices/invoices/0001.pdf" = None
    ∧ tbl_invoices (w_db w') = [].
Proof. eexists. split; [reflexivity|]. repeat split. Qed.

(** An ingredient search beyond the last page answers an empty page. *)
Example ingredient_search_beyond_last_page :
  (GET_search_ingredients (Some "cham") None 3 10 Reference.tea_db).1
  = Success 200
      {| data := [];
         result_meta := {| total_count := 1; page_count := Atom (VInt 1);
                           page_size := Atom (VInt 10);
                           current_page := Atom (VInt 3) |} |}.
Proof. reflexivity. Qed.

(** * The stores, the handlers and the validators *)

(** ** Rows by key *)

Section Keyed.
Context {A : Type} (key : A → string).

Lemma head_filter_absent (k : string) (rows : list A) :
  k ∉ key <$> rows → filter (λ r, key r = k) rows = [].
Proof.
  intros Hk. induction rows as [|r rows IH]; [done|].
  rewrite fmap_cons, not_elem_of_cons in Hk. destruct Hk as [Hne Hk].
  rewrite filter_cons_False by (simpl; congruence). auto.
Qed.

Lemma head_filter_appended (k : string) (rows : list A) (new : A) :
  k ∉ key <$> rows → key new = k →
  head (filter (λ r, key r = k) (rows ++ [new])%list) = Some new.
Proof.
  intros Hk Hnew. rewrite filter_app, head_filter_absent by done.
  simpl. by rewrite filter_cons_True.
Qed.

Lemma filter_key_replaced (k k0 : string) (u : A) (rows : list A) :
  key u = k0 →
  filter (λ r, key r = k) ((λ r, if decide (key r = k0) then u else r) <$> rows)
  = if decide (k = k0) then (λ _, u) <$> filter (λ r, key r = k0) rows
    else filter (λ r, key r = k) rows.
Proof.
  intros Hu. induction rows as [|r rows IH]; [by destruct (decide _)|].
  rewrite fmap_cons. destruct (decide (key r = k0)) as [Hr|Hr].
  - destruct (decide (k = k0)) as [->|Hk].
    + rewrite !filter_cons_True by done. rewrite fmap_cons. by f_equal.
    + rewrite !filter_cons_False by congruence. done.
  - destruct (decide (k = k0)) as [->|Hk].
    + rewrite !filter_cons_False by done. done.
    + destruct (decide (key r = k)) as [Hrk|Hrk].
      * rewrite !filter_cons_True by done. by f_equal.
      * rewrite !filter_cons_False by done. done.
Qed.

Lemma keys_replaced (k0 : string) (u : A) (rows : list A) :
  key u = k0 →
  key <$> ((λ r, if decide (key r = k0) then u else r) <$> rows) = key <$> rows.
Proof.
  intros Hu. induction rows as [|r rows IH]; [done|].
  rewrite !fmap_cons, IH. f_equal. by destruct (decide _); [congruence|].
Qed.


Lemma filter_key_removed (k k0 : string) (rows : list A) :
  filter (λ r, key r = k) (filter (λ r, key r ≠ k0) rows)
  = if decide (k = k0) then [] else filter (λ r, key r = k) rows.
Proof.
  induction rows as [|r rows IH]; [by destruct (decide _)|].
  destruct (decide (key r = k0)) as [Hr|Hr].
  - rewrite (filter_cons_False (λ r, key r ≠ k0)) by (simpl; tauto).
    rewrite IH. destruct (decide (k = k0)) as [->|Hk]; [done|].
    rewrite (filter_cons_False (λ r, key r = k)) by (simpl; congruence). done.
  - rewrite (filter_cons_True (λ r, key r ≠ k0)) by done.
    destruct (decide (k = k0)) as [->|Hk].
    + rewrite filter_cons_False by done. exact IH.
    + destruct (decide (key r = k)) as [Hrk|Hrk].
      * rewrite !filter_cons_True by done. by f_equal.
      * rewrite !filter_cons_False by done. done.
Qed.

Lemma head_filter_stored (k : string) (rows : list A) :
  k ∈ key <$> rows → ∃ r, head (filter (λ r, key r = k) rows) = Some r ∧ key r = k ∧ r ∈ rows.
Proof.
  induction rows as [|r rows IH]; [by intros ?%elem_of_nil|].
  rewrite fmap_cons. intros Hin. destruct (decide (key r = k)) as [Hr|Hr].
  - exists r. rewrite filter_cons_True by done. split; [done|]. split; [done | left].
  - rewrite filter_cons_False by done.
    apply elem_of_cons in Hin as [?|Hin]; [congruence|].
    destruct (IH Hin) as (r' & ? & ? & ?). exists r'. split; [done|].
    split; [done | by right].
Qed.

End Keyed.

(** ** The ingredient store *)

Section IngredientStoreProofs.
Context `{PG : Postgres}.

Lemma Ingredient_of_row_of (ingredient : Ingredient.t) :
  Ingredient_of_row (row_of_Ingredient ingredient) = ingredient.
Proof. by destruct ingredient. Qed.

(** X1. [IngredientRepository.create] then [get_by_id]: on a live
    connection, an ingredient whose id and name are not yet stored is
    appended to the table as one row, and fetching its id gives back the
    ingredient that was created. *)
Theorem ingredient_create_then_get (ingredient : Ingredient.t) (db : database) :
  connected db = true →
  Ingredient.id ingredient ∉ i_id <$> tbl_ingredients db →
  Ingredient.name ingredient ∉ i_name <$> tbl_ingredients db →
  ∃ db' db'',
    IngredientRepository_create ingredient db = (Ok ingredient, db')
    ∧ IngredientRepository_get_by_id (Ingredient.id ingredient) db'
      = (Ok (Some ingredient), db'')
    ∧ tbl_ingredients db'
      = (tbl_ingredients db ++ [row_of_Ingredient ingredient])%list.
Proof.
  intros Hc Hid Hname.
  unfold IngredientRepository_create, IngredientRepository_get_by_id,
    insert_ingredient, select_ingredient_by_id.
  step_monad. rewrite Hc. simpl.
  destruct (decide _) as [[?|?]|_]; [done | done |]. simpl.
  do 2 eexists. split; [reflexivity|].
  unfold with_ingredients, sent. simpl. rewrite Hc. simpl.
  rewrite (head_filter_appended i_id) by done. simpl.
  rewrite Ingredient_of_row_of. split; reflexivity.
Qed.


Lemma name_filter_empty_is_none (r : ingredient_row) :
  name_filter_holds (Some "") r = name_filter_holds None r.
Proof. reflexivity. Qed.


(** X4. [IngredientRepository.delete] then [get_by_id]: the id is gone,
    every other id is fetched as before, and the formulas are not
    looked at (a formula that names the ingredient keeps naming it). *)
Theorem ingredient_delete_then_get (ingredient_id : string) (db : database) :
  connected db = true →
  ∃ db' db'',
    IngredientRepository_delete ingredient_id db = (Ok (), db')
    ∧ IngredientRepository_get_by_id ingredient_id db' = (Ok None, db'')
    ∧ (∀ j, j ≠ ingredient_id →
         (IngredientRepository_get_by_id j db').1
         = (IngredientRepository_get_by_id j db).1)
    ∧ tbl_formulas db' = tbl_formulas db.
Proof.
  intros Hc.
  unfold IngredientRepository_delete, IngredientRepository_get_by_id,
    delete_ingredients, select_ingredient_by_id.
  step_monad. rewrite Hc. simpl.
  do 2 eexists. split; [reflexivity|].
  unfold with_ingredients, sent. simpl. rewrite Hc. simpl.
  assert (Hfilter : filter (λ r, i_id r ∉ [ingredient_id]) (tbl_ingredients db)
                    = filter (λ r, i_id r ≠ ingredient_id) (tbl_ingredients db)).
  { apply list_filter_iff. intros r. by rewrite list_elem_of_singleton. }
  rewrite Hfilter, (filter_key_removed i_id).
  rewrite decide_True by done. simpl.
  split; [reflexivity|]. split; [|reflexivity].
  intros j Hj. rewrite (filter_key_removed i_id).
  rewrite decide_False by done. by destruct (head _).
Qed.

End IngredientStoreProofs.

(** ** The formula store *)

Section FormulaStoreProofs.
Context `{PG : Postgres}.




(** X6. [FormulaRepository.delete] then [get_by_id]: the id is gone,
    other ids are fetched as before, an unknown id changes nothing, and
    the ingredients are untouched. *)
Theorem formula_delete_then_get (formula_id : string) (db : database) :
  connected db = true →
  ∃ db' db'',
    FormulaRepository_delete formula_id db = (Ok (), db')
    ∧ FormulaRepository_get_by_id formula_id db' = (Ok None, db'')
    ∧ (∀ j, j ≠ formula_id →
         (FormulaRepository_get_by_id j db').1
         = (FormulaRepository_get_by_id j db).1)
    ∧ (formula_id ∉ f_id <$> tbl_formulas db →
         tbl_formulas db' = tbl_formulas db)
    ∧ tbl_ingredients db' = tbl_ingredients db.
Proof.
  intros Hc.
  unfold FormulaRepository_delete, FormulaRepository_get_by_id,
    delete_formula_rows, select_formula_by_id.
  step_monad. rewrite Hc. simpl.
  do 2 eexists. split; [reflexivity|].
  unfold with_formulas, sent. simpl. rewrite Hc. simpl.
  rewrite (filter_key_removed f_id). rewrite decide_True by done. simpl.
  split; [reflexivity|]. split; [|split; [|reflexivity]].
  - intros j Hj. rewrite (filter_key_removed f_id).
    rewrite decide_False by done. by destruct (head _).
  - intros Habs. induction (tbl_formulas db) as [|r rows IH]; [done|].
    rewrite fmap_cons, not_elem_of_cons in Habs. destruct Habs as [Hne Habs].
    rewrite filter_cons_True by (simpl; congruence). by rewrite IH.
Qed.


(** X8. [FormulaRepository.list_all] with page < 1 and size > 0 sends
    a negative OFFSET: the statement is refused with DataError, which
    the repository passes on. *)
Theorem formula_list_page_refused (page size : Z) (db : database) :
  connected db = true → page < 1 → 0 < size →
  FormulaRepository_list_all page size db
  = (Raise DataError, sent t_formulas db).
Proof.
  intros Hc Hp Hs.
  unfold FormulaRepository_list_all. step_monad. rewrite Hc. simpl.
  unfold limit_offset. destruct (decide _) as [_|Hn]; [done|].
  exfalso. apply Hn. right. nia.
Qed.

End FormulaStoreProofs.

(** ** The ingredient and formula handlers *)

Section HandlerProofs.
Context `{PG : Postgres}.

Lemma unchanged_refl db : unchanged db db.
Proof. by repeat split. Qed.

Lemma unchanged_sent t db : unchanged db (sent t db).
Proof. by repeat split. Qed.

Lemma unchanged_trans db1 db2 db3 :
  unchanged db1 db2 → unchanged db2 db3 → unchanged db1 db3.
Proof.
  intros (?&?&?&?) (?&?&?&?). repeat split; congruence.
Qed.

Lemma head_filter_eq_absent (i : string) (ids : list string) :
  i ∉ ids → head (filter (λ j, j = i) ids) = None.
Proof.
  intros Hi. induction ids as [|j ids IH]; [done|].
  apply not_elem_of_cons in Hi as [Hne Hi].
  rewrite filter_cons_False by (simpl; congruence). auto.
Qed.

Lemma select_ingredient_by_id_runs (ingredient_id : string) (db : database) :
  connected db = true →
  select_ingredient_by_id ingredient_id db
  = (Ok (head (filter (λ r, i_id r = ingredient_id) (tbl_ingredients db))),
     sent t_ingredients db).
Proof. intros Hc. unfold select_ingredient_by_id. step_monad. by rewrite Hc. Qed.

Lemma select_ingredient_id_runs (ingredient_id : string) (db : database) :
  connected db = true →
  select_ingredient_id ingredient_id db
  = (Ok (if decide (ingredient_id ∈ i_id <$> tbl_ingredients db)
         then Some ingredient_id else None),
     sent t_ingredients db).
Proof.
  intros Hc. unfold select_ingredient_id. step_monad. rewrite Hc. simpl.
  destruct (decide _) as [Hin|Hin].
  - by rewrite head_filter_present.
  - by rewrite head_filter_eq_absent.
Qed.

Lemma select_formula_id_runs (formula_id : string) (db : database) :
  connected db = true →
  select_formula_id formula_id db
  = (Ok (if decide (formula_id ∈ f_id <$> tbl_formulas db)
         then Some formula_id else None),
     sent t_formulas db).
Proof.
  intros Hc. unfold select_formula_id. step_monad. rewrite Hc. simpl.
  destruct (decide _) as [Hin|Hin].
  - by rewrite head_filter_present.
  - by rewrite head_filter_eq_absent.
Qed.

(** X9. An ingredient id that is not stored: [get_ingredient] answers
    404 'Ingredient not found' and [get_formulas_by_ingredient] raises
    the same 404, each after one SELECT on ingredients. *)
Theorem not_found_statuses (ingredient_id : string) (db : database) :
  connected db = true →
  ingredient_id ∉ i_id <$> tbl_ingredients db →
  GET_ingredient ingredient_id db
    = (Failure 404 "Ingredient not found", sent t_ingredients db)
  ∧ get_formulas_by_ingredient ingredient_id db
    = (Raise (HTTPException 404 "Ingredient not found"), sent t_ingredients db).
Proof.
  intros Hc Hi.
  unfold GET_ingredient, get_ingredient, get_formulas_by_ingredient,
    try_except, bind.
  rewrite select_ingredient_by_id_runs, select_ingredient_id_runs by done.
  rewrite (head_filter_absent i_id) by done.
  rewrite !decide_False by done. simpl. done.
Qed.

(** X10. An id that is not stored: [update_ingredient],
    [delete_ingredient] and [delete_formula] raise their 404 inside a
    [try] whose [except Exception] catches it, so the answer is 500 with
    the handler's failure message. One SELECT is sent, nothing
    changes. *)
Theorem not_found_swallowed (ingredient_id name unit : string) (cost_per_unit : Q)
    (density : option Q) (formula_id : string) (db : database) :
  connected db = true →
  ingredient_id ∉ i_id <$> tbl_ingredients db →
  formula_id ∉ f_id <$> tbl_formulas db →
  PATCH_ingredient ingredient_id name unit cost_per_unit density db
    = (Failure 500 "Failed to update ingredient", sent t_ingredients db)
  ∧ DELETE_ingredient ingredient_id db
    = (Failure 500 "Failed to delete ingredient", sent t_ingredients db)
  ∧ DELETE_formula formula_id db
    = (Failure 500 "Failed to delete formula", sent t_formulas db).
Proof.
  intros Hc Hi Hf.
  unfold PATCH_ingredient, update_ingredient,
    DELETE_ingredient, delete_ingredient, DELETE_formula, delete_formula,
    try_except, bind.
  rewrite select_ingredient_id_runs, select_formula_id_runs by done.
  rewrite !decide_False by done. simpl. done.
Qed.

Lemma get_ingredient_runs (ingredient_id : string) (db : database) :
  connected db = true →
  GET_ingredient ingredient_id db
  = (match head (filter (λ r, i_id r = ingredient_id) (tbl_ingredients db)) with
     | Some row => Success 200 (ingredient_item_of row)
     | None => Failure 404 "Ingredient not found"
     end, sent t_ingredients db).
Proof.
  intros Hc. unfold GET_ingredient, get_ingredient, try_except, bind.
  rewrite select_ingredient_by_id_runs by done. by destruct (head _).
Qed.

(** X11. PATCH then GET of a stored ingredient, with a name that no
    other row holds: both answer 200 with the same resource, built from
    the payload; the set of ids and every other ingredient's resource
    stay as they were. *)
Theorem patch_then_get_ingredient (ingredient_id name unit : string)
    (cost_per_unit : Q) (density : option Q) (db : database) :
  connected db = true →
  ingredient_id ∈ i_id <$> tbl_ingredients db →
  name ∉ i_name <$> filter (λ r, i_id r ≠ ingredient_id) (tbl_ingredients db) →
  let item := {| ii_id := ingredient_id; ii_name := name; ii_unit := unit;
                 ii_cost_per_unit := cost_per_unit; ii_density := density |} in
  ∃ db' db'',
    PATCH_ingredient ingredient_id name unit cost_per_unit density db
      = (Success 200 item, db')
    ∧ GET_ingredient ingredient_id db' = (Success 200 item, db'')
    ∧ i_id <$> tbl_ingredients db' = i_id <$> tbl_ingredients db
    ∧ (∀ j, j ≠ ingredient_id →
         (GET_ingredient j db').1 = (GET_ingredient j db).1)
    ∧ tbl_formulas db' = tbl_formulas db.
Proof.
  intros Hc Hin Hname item.
  unfold PATCH_ingredient, update_ingredient, try_except, bind.
  rewrite select_ingredient_id_runs by done. rewrite decide_True by done.
  unfold update_ingredient_rows. step_monad. rewrite Hc. simpl.
  rewrite decide_False by tauto. simpl.
  destruct (head_filter_stored i_id _ _ Hin) as (r & Hr & _ & _).
  destruct (filter (λ r0 : ingredient_row, i_id r0 = ingredient_id)
              (tbl_ingredients db)) as [|r0 l] eqn:Hf; [discriminate Hr|].
  simpl. do 2 eexists. split; [reflexivity|].
  split.
  { rewrite get_ingredient_runs by done. unfold with_ingredients, sent. simpl.
    rewrite (filter_key_replaced i_id) by done. rewrite decide_True by done.
    rewrite Hf. reflexivity. }
  unfold with_ingredients, sent. simpl.
  split; [by apply (keys_replaced i_id)|]. split; [|done].
  intros j Hj. rewrite !get_ingredient_runs by done. simpl.
  rewrite (filter_key_replaced i_id) by done. by rewrite decide_False by done.
Qed.

(** X12. [delete_formula] of a stored formula answers 204; exactly the
    rows with that id are gone, ingredients and invoices are untouched. *)
Theorem delete_stored_formula (formula_id : string) (db : database) :
  connected db = true →
  formula_id ∈ f_id <$> tbl_formulas db →
  ∃ db',
    DELETE_formula formula_id db = (Success 204 (), db')
    ∧ tbl_formulas db' = filter (λ r, f_id r ≠ formula_id) (tbl_formulas db)
    ∧ (formula_id ∉ f_id <$> tbl_formulas db')
    ∧ tbl_ingredients db' = tbl_ingredients db
    ∧ tbl_invoices db' = tbl_invoices db.
Proof.
  intros Hc Hin.
  unfold DELETE_formula, delete_formula, try_except, bind.
  rewrite select_formula_id_runs by done. rewrite decide_True by done.
  unfold delete_formula_rows. step_monad. rewrite Hc. simpl.
  eexists. split; [reflexivity|]. unfold with_formulas. simpl.
  split; [done|]. split; [|done].
  rewrite list_elem_of_fmap. intros (r & Hr & Hrin).
  apply list_elem_of_filter in Hrin as [Hne _]. congruence.
Qed.

Lemma stored_items_unchanged db db' (items : list (string * Q)) :
  unchanged db db' → stored_items db' items = stored_items db items.
Proof. intros (Hi & _). unfold stored_items. by rewrite Hi. Qed.

Lemma related_ingredients_runs (items : list (string * Q)) (db : database) :
  connected db = true →
  ∃ db',
    related_ingredients items db = (Ok (stored_items db items), db')
    ∧ unchanged db db'
    ∧ executed db'
      = (executed db ++ replicate (length items) t_ingredients)%list.
Proof.
  revert db. induction items as [|[ingredient_id percentage] items IH];
    intros db Hc.
  - exists db. split; [done|]. split; [apply unchanged_refl|].
    simpl. by rewrite app_nil_r.
  - simpl. unfold bind at 1. rewrite select_ingredient_by_id_runs by done.
    destruct (IH (sent t_ingredients db) Hc) as (db' & Hrun & Hun & Hex).
    unfold bind at 1. rewrite Hrun. exists db'.
    rewrite (stored_items_unchanged db) by apply unchanged_sent.
    split; [|split].
    + unfold ret.
      change (stored_items db ((ingredient_id, percentage) :: items))
        with (filter (λ item : string * Q, item.1 ∈ i_id <$> tbl_ingredients db)
                ((ingredient_id, percentage) :: items)).
      destruct (decide (ingredient_id ∈ i_id <$> tbl_ingredients db)) as [Hin|Hin].
      * rewrite filter_cons_True by done.
        by destruct (head_filter_stored i_id _ _ Hin) as (r & -> & <- & _).
      * rewrite (head_filter_absent i_id) by done. simpl.
        by rewrite filter_cons_False.
    + eapply unchanged_trans; [apply unchanged_sent | done].
    + rewrite Hex. simpl. by rewrite <- app_assoc.
Qed.

Lemma list_resources_runs
    (mk : formula_row → list (string * Q) → formula_resource)
    (rows : list formula_row) (db : database) :
  connected db = true →
  ∃ db',
    mapM (λ row,
            let* data := related_ingredients (f_ingredients row) in
            ret (mk row data)) rows db
    = (Ok ((λ row, mk row (stored_items db (f_ingredients row))) <$> rows), db')
    ∧ unchanged db db'
    ∧ executed db'
      = (executed db
         ++ replicate (sum_list ((λ row, length (f_ingredients row)) <$> rows))
              t_ingredients)%list.
Proof.
  revert db. induction rows as [|row rows IH]; intros db Hc.
  - exists db. split; [done|]. split; [apply unchanged_refl|].
    simpl. by rewrite app_nil_r.
  - destruct (related_ingredients_runs (f_ingredients row) db Hc)
      as (db1 & Hrun & Hun & Hex).
    assert (Hc1 : connected db1 = true) by (destruct Hun as (_&_&_&->); done).
    destruct (IH db1 Hc1) as (db' & Hruns & Hun' & Hex').
    exists db'. split; [|split].
    + simpl. unfold bind at 1. unfold bind at 1. rewrite Hrun.
      unfold ret at 1. unfold bind at 1. rewrite Hruns. unfold ret.
      do 3 f_equal. apply list_fmap_ext. intros _ r _.
      by rewrite (stored_items_unchanged db db1).
    + by eapply unchanged_trans.
    + rewrite Hex', Hex, fmap_cons. simpl.
      by rewrite replicate_add, app_assoc.
Qed.

End HandlerProofs.

(** ** Listing formulas and ingredients *)

Section ListingProofs.
Context `{PG : Postgres}.
Lemma by_ingredient_runs (ingredient_id : string) (db : database) :
  connected db = true →
  ingredient_id ∈ i_id <$> tbl_ingredients db →
  ∃ db',
    get_formulas_by_ingredient ingredient_id db
    = (Ok (formula_using db
             <$> filter (λ f, references ingredient_id f) (tbl_formulas db)),
       db')
    ∧ unchanged db db'.
Proof.
  intros Hc Hin.
  unfold get_formulas_by_ingredient.
  unfold bind at 1. rewrite select_ingredient_id_runs by done.
  rewrite decide_True by done.
  unfold bind at 1. unfold bind at 1. unfold statement at 1.
  simpl connected. rewrite Hc.
  unfold bind at 1, get at 1, ret at 1.
  destruct (list_resources_runs
              (λ row data, {| fr_id := f_id row; fr_name := f_name row;
                              fr_description := f_description row;
                              fr_mass := None; fr_ingredients := data |})
              (filter (λ f, references ingredient_id f) (tbl_formulas db))
              (sent t_formulas (sent t_ingredients db)) Hc)
    as (db' & Hrun & Hun & _).
  simpl tbl_formulas. rewrite Hrun.
  exists db'. split; [reflexivity|].
  eapply unchanged_trans; [|exact Hun].
  eapply unchanged_trans; apply unchanged_sent.
Qed.

(** X13. [get_formulas_by_ingredient] for a stored ingredient returns,
    in table order, one resource per formula whose mapping has the
    ingredient as a key: each lists the queried ingredient among its
    relationships, every formula using it is present, relationships to
    ingredients that are not stored are left out, and no table
    changes. *)
Theorem formulas_by_ingredient_exact (ingredient_id : string) (db : database) :
  connected db = true →
  ingredient_id ∈ i_id <$> tbl_ingredients db →
  ∃ items db',
    get_formulas_by_ingredient ingredient_id db = (Ok items, db')
    ∧ items = formula_using db
                <$> filter (λ f, references ingredient_id f) (tbl_formulas db)
    ∧ (∀ item, item ∈ items → ingredient_id ∈ (fr_ingredients item).*1)
    ∧ (∀ row, row ∈ tbl_formulas db →
         ingredient_id ∈ (f_ingredients row).*1 → f_id row ∈ fr_id <$> items)
    ∧ unchanged db db'.
Proof.
  intros Hc Hin.
  destruct (by_ingredient_runs ingredient_id db Hc Hin) as (db' & Hrun & Hun).
  do 2 eexists. split; [exact Hrun|].
  split; [reflexivity|]. split; [|split; [|exact Hun]].
  - intros item (row & -> & Hrow)%list_elem_of_fmap.
    apply list_elem_of_filter in Hrow as [Href _].
    unfold references in Href. apply bool_decide_unpack in Href.
    simpl. unfold stored_items.
    apply list_elem_of_fmap in Href as ([k v] & -> & Hkv).
    apply list_elem_of_fmap. exists (k, v). split; [done|].
    apply list_elem_of_filter. split; [|done]. done.
  - intros row Hrow Href. apply list_elem_of_fmap.
    exists (formula_using db row). split; [done|].
    apply list_elem_of_fmap. exists row. split; [done|].
    apply list_elem_of_filter. split; [|done].
    unfold references. by apply bool_decide_pack.
Qed.

(** X14. For a stored ingredient, [delete_ingredient] answers 204
    exactly when [get_formulas_by_ingredient] returns the empty list. *)
Theorem deletable_iff_unlisted (ingredient_id : string) (db : database) :
  connected db = true →
  ingredient_id ∈ i_id <$> tbl_ingredients db →
  (get_formulas_by_ingredient ingredient_id db).1 = Ok []
  ↔ ∃ db', DELETE_ingredient ingredient_id db = (Success 204 (), db').
Proof.
  intros Hc Hin.
  destruct (by_ingredient_runs ingredient_id db Hc Hin) as (db1 & -> & _).
  simpl.
  destruct (decide (referencing ingredient_id db = 0)) as [Hz|Hnz].
  - split.
    + intros _.
      destruct (delete_unreferenced_ingredient ingredient_id db Hc Hin Hz)
        as (db' & Hdel & _). eauto.
    + intros _. unfold referencing in Hz.
      destruct (filter _ (tbl_formulas db)); [done | simpl in Hz; lia].
  - assert (Hpos : 0 < referencing ingredient_id db)
      by (unfold referencing in *; lia).
    destruct (delete_referenced_ingredient ingredient_id db Hc Hin Hpos)
      as (db' & Hdel & _).
    split.
    + intros [= Hnil]. apply fmap_nil_inv in Hnil.
      unfold referencing in Hnz. rewrite Hnil in Hnz. done.
    + intros (db'' & Hdel'). rewrite Hdel in Hdel'. discriminate.
Qed.

(** X15. [get_formulas] answers 200 with one resource per row of the
    table, in table order, each with its mass and with the relationships
    to stored ingredients only; it sends one SELECT on formulas and then
    one SELECT on ingredients per entry of every mapping, and changes no
    table. *)
Theorem get_formulas_lists_all (db : database) :
  connected db = true →
  ∃ db',
    GET_formulas db = (Success 200 (listed_formula db <$> tbl_formulas db), db')
    ∧ unchanged db db'
    ∧ executed db'
      = (executed db
         ++ t_formulas
            :: replicate
                 (sum_list ((λ row, length (f_ingredients row)) <$> tbl_formulas db))
                 t_ingredients)%list.
Proof.
  intros Hc. unfold GET_formulas, get_formulas, try_except.
  unfold bind at 1. unfold bind at 1. unfold statement at 1. rewrite Hc.
  unfold bind at 1, get at 1, ret at 1.
  destruct (list_resources_runs
              (λ row data, {| fr_id := f_id row; fr_name := f_name row;
                              fr_description := f_description row;
                              fr_mass := Some (f_mass row);
                              fr_ingredients := data |})
              (tbl_formulas db) (sent t_formulas db) Hc)
    as (db' & Hrun & Hun & Hex).
  simpl tbl_formulas. rewrite Hrun. simpl. exists db'. split; [reflexivity|].
  split; [eapply unchanged_trans; [apply unchanged_sent | exact Hun]|].
  rewrite Hex. simpl. by rewrite <- app_assoc.
Qed.

Lemma item_of_Ingredient_of_row (row : ingredient_row) :
  item_of_Ingredient (Ingredient_of_row row) = ingredient_item_of row.
Proof. reflexivity. Qed.


End ListingProofs.

(** ** Ingredient search and bulk deletion *)

Section SearchAndBulk.
Context `{PG : Postgres}.


(** X18. [search_ingredients] without a usable term (both [q] and
    [search] missing or empty) raises its 400 inside the [try]; the last
    [except Exception] catches it and the answer is 500. No statement is
    sent. *)
Theorem ingredient_search_needs_term (q search : option string) (page size : Z)
    (db : database) :
  truthy (str_or q search) = false →
  GET_search_ingredients q search page size db
  = (Failure 500 "An unexpected error occurred", db).
Proof.
  intros Ht. unfold GET_search_ingredients, search_ingredients.
  rewrite Ht. reflexivity.
Qed.

(** X19. [bulk_delete_ingredients] deletes nothing unless every id of
    the payload is stored: one unknown id gives 404, an empty payload
    gives 500 (the statement [IN ()] is refused), and the tables are as
    before. *)
Theorem bulk_delete_all_or_nothing (payload_ids : list string) (db : database) :
  connected db = true →
  payload_ids = [] ∨ (∃ i, i ∈ payload_ids ∧ i ∉ i_id <$> tbl_ingredients db) →
  ∃ detail db',
    DELETE_bulk_ingredients payload_ids db
    = (Failure (if decide (payload_ids = []) then 500 else 404) detail, db')
    ∧ unchanged db db'.
Proof.
  intros Hc H.
  unfold DELETE_bulk_ingredients, bulk_delete_ingredients, select_all_ingredients,
    select_ingredients_in, delete_ingredients.
  step_monad. rewrite Hc. simpl.
  rewrite length_fmap. destruct (decide (length _ = _)) as [_|?]; [|done]. simpl.
  rewrite Hc. simpl.
  destruct H as [->|(i & Hi & Hn)].
  - simpl. do 2 eexists. split; [reflexivity|].
    eapply unchanged_trans; apply unchanged_sent.
  - destruct payload_ids as [|i0 rest] eqn:Hids; [by apply elem_of_nil in Hi|].
    rewrite <- Hids in *. rewrite decide_False by (rewrite Hids; done).
    assert (Hmiss : i ∈ remove_dups
                      (filter (λ i, i ∉ filter (λ i, i ∈ payload_ids)
                                           (i_id <$> tbl_ingredients db))
                         payload_ids)).
    { apply elem_of_remove_dups, list_elem_of_filter. split; [|done].
      intros [_ ?]%list_elem_of_filter. done. }
    simpl (tbl_ingredients (sent _ _)).
    destruct (remove_dups _) as [|m ms]; [by apply elem_of_nil in Hmiss|].
    simpl. do 2 eexists. split; [reflexivity|].
    eapply unchanged_trans; apply unchanged_sent.
Qed.

End SearchAndBulk.

(** ** Deleting invoices *)

Section InvoiceStoreProofs.
Context `{PG : Postgres}.

Lemma select_invoice_by_id_runs (invoice_id : string) (db : database) :
  connected db = true →
  select_invoice_by_id invoice_id db
  = (Ok (head (filter (λ r, inv_id r = invoice_id) (tbl_invoices db))),
     sent t_invoices db).
Proof. intros Hc. unfold select_invoice_by_id. step_monad. by rewrite Hc. Qed.

(** X20. [InvoiceRepository.delete] of an id that is not stored
    returns normally after one SELECT: no row and no file is touched. *)
Theorem invoice_delete_unknown (upload_dir invoice_id : string) (w : world) :
  connected (w_db w) = true →
  invoice_id ∉ inv_id <$> tbl_invoices (w_db w) →
  InvoiceRepository_delete upload_dir invoice_id w
  = (Ok tt, with_db (sent t_invoices (w_db w)) w).
Proof.
  intros Hc Hn. unfold InvoiceRepository_delete, try_except, bind, on_db.
  rewrite select_invoice_by_id_runs by done.
  by rewrite (head_filter_absent inv_id).
Qed.


(** X22. [InvoiceRepository.create] then [delete], for a fresh id on a
    working disk and a live connection: create writes the file, delete
    removes row and file again, [get_by_id] then finds nothing, and the
    invoices table is as it was before the creation. *)
Theorem invoice_create_then_delete (upload_dir : string) (invoice : Invoice)
    (file : list Byte.byte) (w : world) :
  connected (w_db w) = true →
  w_disk w = disk_ok →
  os_path_dirname (os_path_join upload_dir (pdf_path invoice)) ≠ "" →
  invoice_id invoice ∉ inv_id <$> tbl_invoices (w_db w) →
  let file_path := os_path_join upload_dir (pdf_path invoice) in
  ∃ w1 w2 w3,
    InvoiceRepository_create upload_dir invoice file w = (Ok invoice, w1)
    ∧ w_fs w1 !! file_path = Some file
    ∧ InvoiceRepository_delete upload_dir (invoice_id invoice) w1 = (Ok tt, w2)
    ∧ InvoiceRepository_get_by_id (invoice_id invoice) w2 = (Ok None, w3)
    ∧ tbl_invoices (w_db w2) = tbl_invoices (w_db w)
    ∧ w_fs w2 = delete file_path (w_fs w)
    ∧ w_trace w2
      = (w_trace w ++ [FileWritten file_path; RowInserted (invoice_id invoice);
                       FileRemoved file_path])%list.
Proof.
  intros Hc Hdisk Hdir Hfresh file_path.
  assert (Hkeep : filter (λ r, inv_id r ≠ invoice_id invoice)
                    (tbl_invoices (w_db w)) = tbl_invoices (w_db w)).
  { clear -Hfresh. induction (tbl_invoices (w_db w)) as [|r rows IH]; [done|].
    rewrite fmap_cons, not_elem_of_cons in Hfresh. destruct Hfresh as [? ?].
    rewrite filter_cons_True by done. by rewrite IH. }
  assert (Hnone : filter (λ r, inv_id r = invoice_id invoice)
                    (tbl_invoices (w_db w)) = []).
  { clear -Hfresh. induction (tbl_invoices (w_db w)) as [|r rows IH]; [done|].
    rewrite fmap_cons, not_elem_of_cons in Hfresh. destruct Hfresh as [? ?].
    rewrite filter_cons_False by done. by apply IH. }
  set (row := invoice_row_of invoice).
  set (w1 := record (RowInserted (invoice_id invoice))
               (with_db
                  (with_invoices (tbl_invoices (w_db w) ++ [row])
                     (sent t_invoices (w_db w)))
                  (record (FileWritten file_path)
                     (with_fs (<[file_path := file]> (w_fs w)) w)))).
  assert (Hcreate : InvoiceRepository_create upload_dir invoice file w
                    = (Ok invoice, w1)).
  { unfold InvoiceRepository_create, insert_invoice, os_makedirs, write_file,
      on_db. fold file_path. step_monad.
    rewrite bool_decide_false by done. rewrite Hdisk. simpl.
    rewrite Hdisk. simpl. rewrite Hc. reflexivity. }
  assert (Hdb1 : tbl_invoices (w_db w1) = (tbl_invoices (w_db w) ++ [row])%list)
    by reflexivity.
  assert (Hc1 : connected (w_db w1) = true) by exact Hc.
  assert (Hfs1 : w_fs w1 = <[file_path := file]> (w_fs w)) by reflexivity.
  assert (Hrow : inv_id row = invoice_id invoice) by reflexivity.
  assert (Htr1 : w_trace w1
                 = ((w_trace w ++ [FileWritten file_path])
                    ++ [RowInserted (invoice_id invoice)])%list) by reflexivity.
  assert (Hpath : inv_pdf_path row = pdf_path invoice) by reflexivity.
  clearbody w1 row.
  set (w2 := record (FileRemoved file_path)
               (with_fs (delete file_path (w_fs w1))
                  (with_db
                     (with_invoices
                        (filter (λ r, inv_id r ≠ invoice_id invoice)
                           (tbl_invoices (w_db w1)))
                        (sent t_invoices (sent t_invoices (w_db w1))))
                     w1))).
  assert (Hdelete : InvoiceRepository_delete upload_dir (invoice_id invoice) w1
                    = (Ok tt, w2)).
  { unfold InvoiceRepository_delete, try_except, bind, on_db.
    rewrite select_invoice_by_id_runs by done.
    rewrite Hdb1, filter_app, Hnone, app_nil_l.
    rewrite filter_cons_True by done. simpl.
    unfold delete_invoice_rows. step_monad. rewrite Hc1. simpl.
    unfold os_path_exists, os_remove. simpl. rewrite Hpath. fold file_path.
    rewrite Hfs1, lookup_insert_eq.
    rewrite bool_decide_true by eauto. simpl.
    rewrite Hfs1, lookup_insert_eq. unfold w2. by rewrite Hfs1. }
  assert (Htbl : tbl_invoices (w_db w2) = tbl_invoices (w_db w)).
  { simpl. rewrite Hdb1, filter_app, Hkeep.
    rewrite filter_cons_False by (rewrite Hrow; intros ?; done).
    apply app_nil_r. }
  exists w1, w2. eexists.
  split; [exact Hcreate|]. split; [rewrite Hfs1; apply lookup_insert_eq|].
  split; [exact Hdelete|]. split; [|split; [exact Htbl|split]].
  - unfold InvoiceRepository_get_by_id, try_except, bind, on_db.
    rewrite select_invoice_by_id_runs by done.
    rewrite Htbl, Hnone. reflexivity.
  - simpl. rewrite Hfs1. apply delete_insert_eq.
  - simpl. rewrite Htr1. by rewrite <- !app_assoc.
Qed.

End InvoiceStoreProofs.

(** ** The validators of [IngredientAttributes] *)

Section ValidatorProofs.
Context {char : Type} (isspace : char → bool).

Lemma drop_while_idemp {A} (f : A → bool) (l : list A) :
  drop_while f (drop_while f l) = drop_while f l.
Proof.
  induction l as [|x l IH]; [done|]. simpl.
  destruct (f x) eqn:Hx; [done|]. simpl. by rewrite Hx.
Qed.

Lemma drop_while_head {A} (f : A → bool) (l : list A) x rest :
  drop_while f l = x :: rest → f x = false.
Proof.
  induction l as [|y l IH]; [done|]. simpl.
  destruct (f y) eqn:Hy; [done|]. by intros [= <- _].
Qed.

Lemma drop_while_suffix {A} (f : A → bool) (l : list A) :
  ∃ p, l = (p ++ drop_while f l)%list.
Proof.
  induction l as [|x l [p IH]]; [by exists []|]. simpl.
  destruct (f x).
  - exists (x :: p). simpl. by rewrite <- IH.
  - by exists [].
Qed.

Lemma drop_while_length {A} (f : A → bool) (l : list A) :
  (length (drop_while f l) ≤ length l)%nat.
Proof.
  destruct (drop_while_suffix f l) as [p Hp].
  rewrite Hp at 2. rewrite length_app. lia.
Qed.

Lemma drop_while_all {A} (f : A → bool) (l : list A) :
  forallb f l = true → drop_while f l = [].
Proof.
  induction l as [|x l IH]; [done|]. simpl.
  destruct (f x); [done | discriminate].
Qed.

Lemma strip_length (v : list char) :
  (length (Schemas.strip isspace v) ≤ length v)%nat.
Proof.
  unfold Schemas.strip. rewrite length_reverse.
  etrans; [apply drop_while_length|]. rewrite length_reverse.
  apply drop_while_length.
Qed.

Lemma strip_blank (v : list char) :
  forallb isspace v = true → Schemas.strip isspace v = [].
Proof.
  intros Hv. unfold Schemas.strip. rewrite (drop_while_all isspace v) by done. reflexivity.
Qed.

Lemma strip_idemp (v : list char) :
  Schemas.strip isspace (Schemas.strip isspace v) = Schemas.strip isspace v.
Proof.
  unfold Schemas.strip.
  set (s := drop_while isspace v).
  set (t := drop_while isspace (reverse s)).
  assert (Hfix : drop_while isspace (reverse t) = reverse t).
  { destruct (reverse t) as [|x r] eqn:Hr; [done|].
    destruct (drop_while_suffix isspace (reverse s)) as [p Hp]. fold t in Hp.
    apply (f_equal reverse) in Hp.
    rewrite reverse_involutive, reverse_app, Hr in Hp.
    simpl. rewrite (drop_while_head isspace v x (r ++ reverse p)); [done|].
    exact Hp. }
  rewrite Hfix, reverse_involutive. unfold t. by rewrite drop_while_idemp.
Qed.

Lemma validate_name_Ok (v s : list char) :
  Schemas.validate_name isspace v = Ok s ↔ s = Schemas.strip isspace v ∧ s ≠ [].
Proof.
  unfold Schemas.validate_name.
  destruct (Schemas.strip isspace v) as [|x r]; split.
  - done.
  - by intros [-> ?].
  - by intros [= <-].
  - by intros [-> _].
Qed.

Lemma constrained_str_Ok (lo hi : nat) (v s : list char) :
  Schemas.constrained_str lo hi v = Ok s ↔ s = v ∧ (lo ≤ length v ≤ hi)%nat.
Proof.
  unfold Schemas.constrained_str.
  destruct (Nat.leb_spec lo (length v)), (Nat.leb_spec (length v) hi); simpl;
    split; try (intros [= <-]; split; [done | lia]); try done;
    try (by intros [-> _]); intros [_ ?]; lia.
Qed.

Lemma checked_str_Ok (lo hi : nat) (v s : list char) :
  (1 ≤ lo)%nat →
  rbind (Schemas.constrained_str lo hi v) (Schemas.validate_name isspace) = Ok s
  ↔ s = Schemas.strip isspace v ∧ s ≠ [] ∧ (lo ≤ length v ≤ hi)%nat.
Proof.
  intros Hlo. destruct (Schemas.constrained_str lo hi v) as [v'|e] eqn:Hv; simpl.
  - apply constrained_str_Ok in Hv as [-> Hlen].
    rewrite validate_name_Ok. split; [intros [? ?]; done | intros (? & ? & _); done].
  - split; [done|]. intros (_ & _ & Hlen).
    assert (Schemas.constrained_str lo hi v = Ok v) as Hok
      by (by apply constrained_str_Ok).
    congruence.
Qed.

Lemma checked_str_stable (hi : nat) (v s : list char) :
  rbind (Schemas.constrained_str 1 hi v) (Schemas.validate_name isspace) = Ok s →
  (length s ≤ hi)%nat
  ∧ rbind (Schemas.constrained_str 1 hi s) (Schemas.validate_name isspace) = Ok s.
Proof.
  intros (Hs & Hs0 & Hlen)%checked_str_Ok; [|done].
  pose proof (strip_length v) as Hle. rewrite <- Hs in Hle.
  split; [lia|]. apply checked_str_Ok; [done|].
  split; [by rewrite Hs, strip_idemp|]. split; [done|].
  destruct s; [done|]. simpl in *. lia.
Qed.

(** X23. [IngredientAttributes]: when validation accepts, name and
    unit are the stripped inputs, not empty and within 255 and 50
    characters, cost and density are the inputs and not negative, and
    validating the accepted values again accepts them unchanged. *)
Theorem accepted_attributes_normal (name unit : list char) (cost_per_unit : Q)
    (density : option Q) (a : Schemas.IngredientAttributes) :
  Schemas.IngredientAttributes_init isspace name unit cost_per_unit density = Ok a →
  (Schemas.name a = Schemas.strip isspace name ∧ Schemas.name a ≠ []
   ∧ (length (Schemas.name a) ≤ 255)%nat)
  ∧ (Schemas.unit a = Schemas.strip isspace unit ∧ Schemas.unit a ≠ []
     ∧ (length (Schemas.unit a) ≤ 50)%nat)
  ∧ (Schemas.cost_per_unit a = cost_per_unit ∧ Qle_bool 0 cost_per_unit = true)
  ∧ (Schemas.density a = density
     ∧ ∀ x, density = Some x → Qle_bool 0 x = true)
  ∧ Schemas.IngredientAttributes_init isspace (Schemas.name a) (Schemas.unit a)
      (Schemas.cost_per_unit a) (Schemas.density a) = Ok a.
Proof.
  unfold Schemas.IngredientAttributes_init.
  destruct (rbind (Schemas.constrained_str 1 255 name) _) as [n|] eqn:Hn;
    [|done].
  destruct (rbind (Schemas.constrained_str 1 50 unit) _) as [u|] eqn:Hu;
    [|done].
  change (Schemas.validate_unit isspace) with (Schemas.validate_name isspace) in *.
  destruct (checked_str_stable _ _ _ Hn) as [Hnl Hn'].
  destruct (checked_str_stable _ _ _ Hu) as [Hul Hu'].
  apply checked_str_Ok in Hn as (Hn & Hn0 & _); [|done].
  apply checked_str_Ok in Hu as (Hu & Hu0 & _); [|done].
  unfold Schemas.ge_0 at 1.
  destruct (Qle_bool 0 cost_per_unit) eqn:Hc; [|done].
  destruct (Schemas.optional_ge_0 density) as [d|] eqn:Hd; [|done].
  intros [= <-]. simpl.
  assert (Hdd : d = density ∧ ∀ x, density = Some x → Qle_bool 0 x = true).
  { destruct density as [x|]; simpl in Hd.
    - unfold Schemas.ge_0 in Hd. destruct (Qle_bool 0 x) eqn:Hx; [|done].
      simpl in Hd. injection Hd as <-. split; [done|]. by intros ? [= <-].
    - injection Hd as <-. split; [done|]. by intros ? [=]. }
  destruct Hdd as [-> Hdpos].
  repeat split; try done.
  rewrite Hn', Hu', Hd. unfold Schemas.ge_0. by rewrite Hc.
Qed.

(** X24. [IngredientAttributes]: a name or a unit that consists of
    whitespace only (or is empty) is rejected, whatever the other
    fields. *)
Theorem blank_attributes_rejected (name unit : list char) (cost_per_unit : Q)
    (density : option Q) :
  forallb isspace name = true ∨ forallb isspace unit = true →
  Schemas.IngredientAttributes_init isspace name unit cost_per_unit density
  = Raise ValidationError.
Proof.
  intros H. unfold Schemas.IngredientAttributes_init.
  destruct H as [H|H].
  - assert (rbind (Schemas.constrained_str 1 255 name)
              (Schemas.validate_name isspace) = Raise ValidationError) as ->; [|done].
    unfold Schemas.constrained_str. destruct (_ && _); [|done]. simpl.
    unfold Schemas.validate_name. by rewrite (strip_blank name).
  - assert (rbind (Schemas.constrained_str 1 50 unit)
              (Schemas.validate_unit isspace) = Raise ValidationError) as ->.
    { unfold Schemas.constrained_str. destruct (_ && _); [|done]. simpl.
      unfold Schemas.validate_unit. by rewrite (strip_blank unit). }
    by destruct (rbind _ _).
Qed.

End ValidatorProofs.

(** ** The theorems of the stores and handlers on concrete tables *)

#[local] Existing Instance Reference.pg.

Lemma ingredient_create_then_get_witness :
  ∃ db' db'',
    IngredientRepository_create Fixtures.mint Reference.tea_db = (Ok Fixtures.mint, db')
    ∧ IngredientRepository_get_by_id (Ingredient.id Fixtures.mint) db'
      = (Ok (Some Fixtures.mint), db'')
    ∧ tbl_ingredients db'
      = (tbl_ingredients Reference.tea_db ++ [row_of_Ingredient Fixtures.mint])%list.
Proof.
  apply (ingredient_create_then_get
           (PG := Reference.pg) Fixtures.mint Reference.tea_db).
  - reflexivity.
  - apply (bool_decide_unpack _); reflexivity.
  - apply (bool_decide_unpack _); reflexivity.
Defined.



Lemma ingredient_delete_then_get_witness :
  ∃ db' db'',
    IngredientRepository_delete "i1" Reference.tea_db = (Ok (), db')
    ∧ IngredientRepository_get_by_id "i1" db' = (Ok None, db'')
    ∧ (∀ j, j ≠ "i1" →
         (IngredientRepository_get_by_id j db').1
         = (IngredientRepository_get_by_id j Reference.tea_db).1)
    ∧ tbl_formulas db' = tbl_formulas Reference.tea_db.
Proof.
  apply (ingredient_delete_then_get
           (PG := Reference.pg) "i1" Reference.tea_db).
  - reflexivity.
Defined.


Lemma formula_delete_then_get_witness :
  ∃ db' db'',
    FormulaRepository_delete "f1" Reference.tea_db = (Ok (), db')
    ∧ FormulaRepository_get_by_id "f1" db' = (Ok None, db'')
    ∧ (∀ j, j ≠ "f1" →
         (FormulaRepository_get_by_id j db').1
         = (FormulaRepository_get_by_id j Reference.tea_db).1)
    ∧ ("f1" ∉ f_id <$> tbl_formulas Reference.tea_db →
         tbl_formulas db' = tbl_formulas Reference.tea_db)
    ∧ tbl_ingredients db' = tbl_ingredients Reference.tea_db.
Proof.
  apply (formula_delete_then_get (PG := Reference.pg) "f1" Reference.tea_db).
  - reflexivity.
Defined.


Lemma formula_list_page_refused_witness :
  FormulaRepository_list_all 0 10 Reference.tea_db
  = (Raise DataError, sent t_formulas Reference.tea_db).
Proof.
  apply (formula_list_page_refused (PG := Reference.pg) 0 10 Reference.tea_db).
  - reflexivity.
  - lia.
  - lia.
Defined.

Lemma not_found_statuses_witness :
  GET_ingredient "i7" Reference.tea_db
    = (Failure 404 "Ingredient not found", sent t_ingredients Reference.tea_db)
  ∧ get_formulas_by_ingredient "i7" Reference.tea_db
    = (Raise (HTTPException 404 "Ingredient not found"), sent t_ingredients Reference.tea_db).
Proof.
  apply (not_found_statuses (PG := Reference.pg) "i7" Reference.tea_db).
  - reflexivity.
  - apply (bool_decide_unpack _); reflexivity.
Defined.

Lemma not_found_swallowed_witness :
  PATCH_ingredient "i7" "Sage" "g" (2 # 1) None Reference.tea_db
    = (Failure 500 "Failed to update ingredient", sent t_ingredients Reference.tea_db)
  ∧ DELETE_ingredient "i7" Reference.tea_db
    = (Failure 500 "Failed to delete ingredient", sent t_ingredients Reference.tea_db)
  ∧ DELETE_formula "f7" Reference.tea_db
    = (Failure 500 "Failed to delete formula", sent t_formulas Reference.tea_db).
Proof.
  apply (not_found_swallowed
           (PG := Reference.pg) "i7" "Sage" "g" (2 # 1) None "f7"
           Reference.tea_db).
  - reflexivity.
  - apply (bool_decide_unpack _); reflexivity.
  - apply (bool_decide_unpack _); reflexivity.
Defined.

Lemma patch_then_get_ingredient_witness :
  let item := {| ii_id := "i1"; ii_name := "Camomile"; ii_unit := "kg";
                 ii_cost_per_unit := (12 # 1); ii_density := None |} in
  ∃ db' db'',
    PATCH_ingredient "i1" "Camomile" "kg" (12 # 1) None Reference.tea_db
      = (Success 200 item, db')
    ∧ GET_ingredient "i1" db' = (Success 200 item, db'')
    ∧ i_id <$> tbl_ingredients db' = i_id <$> tbl_ingredients Reference.tea_db
    ∧ (∀ j, j ≠ "i1" →
         (GET_ingredient j db').1 = (GET_ingredient j Reference.tea_db).1)
    ∧ tbl_formulas db' = tbl_formulas Reference.tea_db.
Proof.
  apply (patch_then_get_ingredient
           (PG := Reference.pg) "i1" "Camomile" "kg" (12 # 1) None
           Reference.tea_db).
  - reflexivity.
  - apply (bool_decide_unpack _); reflexivity.
  - apply (bool_decide_unpack _); reflexivity.
Defined.

Lemma delete_stored_formula_witness :
  ∃ db',
    DELETE_formula "f2" Reference.tea_db = (Success 204 (), db')
    ∧ tbl_formulas db' = filter (λ r, f_id r ≠ "f2") (tbl_formulas Reference.tea_db)
    ∧ ("f2" ∉ f_id <$> tbl_formulas db')
    ∧ tbl_ingredients db' = tbl_ingredients Reference.tea_db
    ∧ tbl_invoices db' = tbl_invoices Reference.tea_db.
Proof.
  apply (delete_stored_formula (PG := Reference.pg) "f2" Reference.tea_db).
  - reflexivity.
  - apply (bool_decide_unpack _); reflexivity.
Defined.

Lemma formulas_by_ingredient_exact_witness :
  ∃ items db',
    get_formulas_by_ingredient "i1" Reference.tea_db = (Ok items, db')
    ∧ items = formula_using Reference.tea_db
                <$> filter (λ f, references "i1" f) (tbl_formulas Reference.tea_db)
    ∧ (∀ item, item ∈ items → "i1" ∈ (fr_ingredients item).*1)
    ∧ (∀ row, row ∈ tbl_formulas Reference.tea_db →
         "i1" ∈ (f_ingredients row).*1 → f_id row ∈ fr_id <$> items)
    ∧ unchanged Reference.tea_db db'.
Proof.
  apply (formulas_by_ingredient_exact
           (PG := Reference.pg) "i1" Reference.tea_db).
  - reflexivity.
  - apply (bool_decide_unpack _); reflexivity.
Defined.

Lemma deletable_iff_unlisted_witness :
  (get_formulas_by_ingredient "i1" Reference.tea_db).1 = Ok []
  ↔ ∃ db', DELETE_ingredient "i1" Reference.tea_db = (Success 204 (), db').
Proof.
  apply (deletable_iff_unlisted (PG := Reference.pg) "i1" Reference.tea_db).
  - reflexivity.
  - apply (bool_decide_unpack _); reflexivity.
Defined.

Lemma get_formulas_lists_all_witness :
  ∃ db',
    GET_formulas Reference.tea_db = (Success 200 (listed_formula Reference.tea_db <$> tbl_formulas Reference.tea_db), db')
    ∧ unchanged Reference.tea_db db'
    ∧ executed db'
      = (executed Reference.tea_db
         ++ t_formulas
            :: replicate
                 (sum_list ((λ row, length (f_ingredients row)) <$> tbl_formulas Reference.tea_db))
                 t_ingredients)%list.
Proof.
  apply (get_formulas_lists_all (PG := Reference.pg) Reference.tea_db).
  - reflexivity.
Defined.



Lemma ingredient_search_needs_term_witness :
  GET_search_ingredients (Some "") None 1 10 Reference.tea_db
  = (Failure 500 "An unexpected error occurred", Reference.tea_db).
Proof.
  apply (ingredient_search_needs_term
           (PG := Reference.pg) (Some "") None 1 10 Reference.tea_db).
  - reflexivity.
Defined.

Lemma bulk_delete_all_or_nothing_witness :
  ∃ detail db',
    DELETE_bulk_ingredients ["i1"; "i7"] Reference.tea_db
    = (Failure (if decide (["i1"; "i7"] = []) then 500 else 404) detail, db')
    ∧ unchanged Reference.tea_db db'.
Proof.
  apply (bulk_delete_all_or_nothing
           (PG := Reference.pg) ["i1"; "i7"] Reference.tea_db).
  - reflexivity.
  - right; exists "i7"; split; apply (bool_decide_unpack _); reflexivity.
Defined.

Lemma invoice_delete_unknown_witness :
  InvoiceRepository_delete UPLOAD_DIR "n1" Fixtures.online
  = (Ok tt, with_db (sent t_invoices (w_db Fixtures.online)) Fixtures.online).
Proof.
  apply (invoice_delete_unknown
           (PG := Reference.pg) UPLOAD_DIR "n1" Fixtures.online).
  - reflexivity.
  - apply (bool_decide_unpack _); reflexivity.
Defined.


Lemma invoice_create_then_delete_witness :
  let file_path := os_path_join UPLOAD_DIR (pdf_path Reference.herbs_invoice) in
  ∃ w1 w2 w3,
    InvoiceRepository_create UPLOAD_DIR Reference.herbs_invoice [] Fixtures.online = (Ok Reference.herbs_invoice, w1)
    ∧ w_fs w1 !! file_path = Some []
    ∧ InvoiceRepository_delete UPLOAD_DIR (invoice_id Reference.herbs_invoice) w1 = (Ok tt, w2)
    ∧ InvoiceRepository_get_by_id (invoice_id Reference.herbs_invoice) w2 = (Ok None, w3)
    ∧ tbl_invoices (w_db w2) = tbl_invoices (w_db Fixtures.online)
    ∧ w_fs w2 = delete file_path (w_fs Fixtures.online)
    ∧ w_trace w2
      = (w_trace Fixtures.online ++ [FileWritten file_path; RowInserted (invoice_id Reference.herbs_invoice);
                       FileRemoved file_path])%list.
Proof.
  apply (invoice_create_then_delete
           (PG := Reference.pg) UPLOAD_DIR Reference.herbs_invoice []
           Fixtures.online).
  - reflexivity.
  - reflexivity.
  - discriminate.
  - apply (bool_decide_unpack _); reflexivity.
Defined.

Lemma accepted_attributes_normal_witness :
  (Schemas.name Fixtures.mint_attributes = Schemas.strip Fixtures.isspace Fixtures.padded_name ∧ Schemas.name Fixtures.mint_attributes ≠ []
   ∧ (length (Schemas.name Fixtures.mint_attributes) ≤ 255)%nat)
  ∧ (Schemas.unit Fixtures.mint_attributes = Schemas.strip Fixtures.isspace Fixtures.gram ∧ Schemas.unit Fixtures.mint_attributes ≠ []
     ∧ (length (Schemas.unit Fixtures.mint_attributes) ≤ 50)%nat)
  ∧ (Schemas.cost_per_unit Fixtures.mint_attributes = (3 # 1) ∧ Qle_bool 0 (3 # 1) = true)
  ∧ (Schemas.density Fixtures.mint_attributes = None
     ∧ ∀ x, None = Some x → Qle_bool 0 x = true)
  ∧ Schemas.IngredientAttributes_init Fixtures.isspace (Schemas.name Fixtures.mint_attributes) (Schemas.unit Fixtures.mint_attributes)
      (Schemas.cost_per_unit Fixtures.mint_attributes) (Schemas.density Fixtures.mint_attributes) = Ok Fixtures.mint_attributes.
Proof.
  apply (accepted_attributes_normal
           Fixtures.isspace Fixtures.padded_name Fixtures.gram (3 # 1) None
           Fixtures.mint_attributes).
  - reflexivity.
Defined.

Lemma blank_attributes_rejected_witness :
  Schemas.IngredientAttributes_init Fixtures.isspace Fixtures.blank Fixtures.gram (3 # 1) None
  = Raise ValidationError.
Proof.
  apply (blank_attributes_rejected
           Fixtures.isspace Fixtures.blank Fixtures.gram (3 # 1) None).
  - left; reflexivity.
Defined.
